(** * The [do] intervention messenger of pyro, embedded in Rocq

    Source: [pyro/poutine/do_messenger.py], class [DoMessenger].

    A message is the Python [dict] that a primitive [pyro.sample] call hands
    to the messenger stack; it is modelled as a finite map from string keys
    to Python values.  The hook [_pyro_sample] mutates that dict in place, so
    the dict is threaded through a small state-and-exception monad together
    with the rest of the interpreter state (warnings emitted, sites resolved
    and the random source).  An exception carries the dict as it is at the
    time of the raise, because the caller still holds a reference to it. *)

From stdpp Require Import gmap strings list fin_maps pretty.

Local Open Scope string_scope.

(** ** The numeric backend

    [torch] and [pyro.distributions] are external to the repository.  They
    are an interface: the types of floats, numbers, tensors, distribution
    objects and random sources, and the operations the messenger and the
    primitive use.  [float()] and the constructor of [Delta] can raise, so
    they yield an exception or a result. *)

Inductive Exn : Type :=
  | KeyError (key : string)
  | TypeError (text : string)
  | AttributeError (attr : string)
  | ValueError (text : string)
  | OverflowError (text : string)
  | NotImplementedError (text : string).

Class Backend := {
  Float : Type;
  Number : Type;
  Tensor : Type;
  Distribution : Type;
  Rng : Type;
  (* float(n) for a number n; raises for a complex number (TypeError) and
     for an int too large for a float (OverflowError) *)
  py_float : Number → Exn + Float;
  (* float(b) for a bool b; bool is a subclass of int *)
  float_of_bool : bool → Float;
  (* torch.tensor(x) for a Python float x *)
  torch_tensor : Float → Tensor;
  (* d.event_shape *)
  event_shape : Distribution → list nat;
  (* Delta(v, event_dim=k); raises ValueError when k > v.dim() *)
  Delta : Tensor → nat → Exn + Distribution;
  (* d() : one draw from d *)
  draw : Distribution → Rng → Tensor * Rng
}.

Section Messenger.
Context `{B : Backend}.

(** ** Python values and messages *)

Inductive Value : Type :=
  | VNone
  | VBool (b : bool)
  | VStr (s : string)
  | VNumber (n : Number)
  | VTensor (t : Tensor)
  | VDist (d : Distribution).

Inductive Warning : Type :=
  | RuntimeWarning (text : string).

Record State : Type := mkState {
  warnings : list Warning;          (* warnings.warn calls, oldest first *)
  trace : list (gmap string Value); (* sites resolved so far, oldest first *)
  rng : Rng
}.

(** The outcome of running a piece of code against a message dict: it
    returns, it raises, or it never comes back. *)
Inductive Res (A : Type) : Type :=
  | Ok (a : A) (msg : gmap string Value) (st : State)
  | Raised (e : Exn) (msg : gmap string Value) (st : State)
  | Diverged.
Arguments Ok {A} a msg st.
Arguments Raised {A} e msg st.
Arguments Diverged {A}.

Definition M (A : Type) : Type := gmap string Value → State → Res A.

Definition ret {A} (a : A) : M A := λ msg st, Ok a msg st.

Definition bind {A C} (c : M A) (k : A → M C) : M C :=
  λ msg st,
    match c msg st with
    | Ok a msg' st' => k a msg' st'
    | Raised e msg' st' => Raised e msg' st'
    | Diverged => Diverged
    end.

#[local] Instance M_ret : MRet M := @ret.
#[local] Instance M_bind : MBind M := λ A C k c, bind c k.

Definition raise {A} (e : Exn) : M A := λ msg st, Raised e msg st.

(* msg[k] *)
Definition getitem (k : string) : M Value :=
  λ msg st,
    match msg !! k with
    | Some v => Ok v msg st
    | None => Raised (KeyError k) msg st
    end.

(* msg.get(k, d) *)
Definition get (k : string) (d : Value) : M Value :=
  λ msg st, Ok (default d (msg !! k)) msg st.

(* msg[k] = v *)
Definition setitem (k : string) (v : Value) : M unit :=
  λ msg st, Ok tt (<[k := v]> msg) st.

(* msg.copy() *)
Definition copy : M (gmap string Value) :=
  λ msg st, Ok msg msg st.

(* warnings.warn(text, RuntimeWarning) *)
Definition warn (w : Warning) : M unit :=
  λ msg st, Ok tt msg (mkState (warnings st ++ [w]) (trace st) (rng st)).

(* f(new_msg), for a callee f that works on another dict than msg *)
Definition call {A} (f : M A) (new_msg : gmap string Value) : M unit :=
  λ msg st,
    match f new_msg st with
    | Ok _ _ st' => Ok tt msg st'
    | Raised e _ st' => Raised e msg st'
    | Diverged => Diverged
    end.

(** ** Python operators used by the hook *)

(* v != s, for a str s *)
Definition ne_str (v : Value) (s : string) : bool :=
  match v with
  | VStr t => negb (String.eqb t s)
  | _ => true
  end.

(* v in data, for a dict keyed by site names *)
Definition in_dict (v : Value) (data : gmap string Value) : bool :=
  match v with
  | VStr s => match data !! s with Some _ => true | None => false end
  | _ => false
  end.

(* data[v] *)
Definition dict_getitem (data : gmap string Value) (v : Value) : M Value :=
  match v with
  | VStr s => match data !! s with
              | Some x => ret x
              | None => raise (KeyError s)
              end
  | _ => raise (KeyError "")
  end.

(* v is not None *)
Definition is_not_None (v : Value) : bool :=
  match v with VNone => false | _ => true end.

(* v + s, for a str s *)
Definition add_str (v : Value) (s : string) : M Value :=
  match v with
  | VStr t => ret (VStr (t ++ s))
  | _ => raise (TypeError "unsupported operand type(s) for +")
  end.

(* str(v), as format() inserts it, for the values a site name can be *)
Definition format_arg (v : Value) : string :=
  match v with VStr t => t | _ => "" end.

(* the text of the warning of lines 59-62, for the site name v *)
Definition multiple_times_text (v : Value) : string :=
  "Attempting to intervene on variable " ++ format_arg v
  ++ " multiple times," ++ "this is almost certainly incorrect behavior".

(* type(v), as format() prints it *)
Definition type_repr (v : Value) : string :=
  match v with
  | VNone => "<class 'NoneType'>"
  | VBool _ => "<class 'bool'>"
  | VStr _ => "<class 'str'>"
  | VNumber _ => "<class 'numbers.Number'>"
  | VTensor _ => "<class 'torch.Tensor'>"
  | VDist _ => "<class 'pyro.distributions.Distribution'>"
  end.

(* len(v.event_shape) *)
Definition len_event_shape (v : Value) : M nat :=
  match v with
  | VDist d => ret (length (event_shape d))
  | _ => raise (AttributeError "event_shape")
  end.

(* isinstance(v, numbers.Number); bool is a subclass of int *)
Definition is_Number (v : Value) : bool :=
  match v with VNumber _ | VBool _ => true | _ => false end.

(* isinstance(v, torch.Tensor) *)
Definition is_Tensor (v : Value) : bool :=
  match v with VTensor _ => true | _ => false end.

(* torch.tensor(float(v)), for a number v *)
Definition tensor_of_float (v : Value) : M Value :=
  match v with
  | VNumber n => match py_float n with
                 | inr x => ret (VTensor (torch_tensor x))
                 | inl e => raise e
                 end
  | VBool b => ret (VTensor (torch_tensor (float_of_bool b)))
  (* not reached: the hook calls it on numbers only *)
  | _ => raise (TypeError "float() argument must be a string or a number")
  end.

(* Delta(v, event_dim=k) *)
Definition new_Delta (v : Value) (k : nat) : M Value :=
  match v with
  | VTensor t => match Delta t k with
                 | inr d => ret (VDist d)
                 | inl e => raise e
                 end
  (* not reached: the hook calls it on tensors only *)
  | _ => raise (AttributeError "dim")
  end.

(** ** DoMessenger *)

Record DoMessenger : Type := mkDo {
  data : gmap string Value;
  _intervener_id : string
}.

(* DoMessenger.__init__(self, data); self_id is id(self), the integer that
   tells the object from every other object alive, and str() prints it in
   decimal *)
Definition __init__ (self_id : Z) (data : gmap string Value) : DoMessenger :=
  mkDo data (pretty self_id).

Section Hook.
(* runtime.apply_stack, imported by the module *)
Variable apply_stack : M Value.

Definition _pyro_sample (self : DoMessenger) : M Value :=
  stamp ← get "_intervener_id" VNone;
  cond ← (if ne_str stamp (_intervener_id self)
           then name ← getitem "name"; ret (in_dict name (data self))
           else ret false);
  if cond : bool then
    stamp ← get "_intervener_id" VNone;
    (if is_not_None stamp
     then name ← getitem "name";
          warn (RuntimeWarning (multiple_times_text name))
     else ret tt);;
    setitem "_intervener_id" (VStr (_intervener_id self));;
    (* split node, avoid reapplying self recursively to new node *)
    new_msg ← copy;
    call apply_stack new_msg;;
    (* apply intervention *)
    name ← getitem "name";
    intervention ← dict_getitem (data self) name;
    name ← getitem "name";
    mangled ← add_str name "__CF";
    setitem "name" mangled;;
    intervention ← (if is_not_None intervention
                     then ret intervention
                     else getitem "fn");
    match intervention with
    | VDist _ =>
        setitem "done" (VBool false);;
        setitem "value" VNone;;
        setitem "is_observed" (VBool false);;
        setitem "fn" intervention;;
        ret VNone
    | _ =>
        if is_Number intervention || is_Tensor intervention then
          intervention ← (if is_Number intervention
                          (* Delta doesn't automatically convert its
                             argument to tensor *)
                          then tensor_of_float intervention
                          else ret intervention);
          setitem "value" intervention;;
          fn ← getitem "fn";
          k ← len_event_shape fn;
          delta ← new_Delta intervention k;
          setitem "fn" delta;;
          setitem "is_observed" (VBool true);;
          ret VNone
        else
          raise (NotImplementedError
                   ("Interventions of type " ++ type_repr intervention
                    ++ " not implemented"))
    end
  else ret VNone.

End Hook.

(** ** The messenger stack and its applier

    [messenger.py], [primitives.py] and [runtime.py] are not among the
    sources at hand; the definitions of this part follow sections 3, 4.2
    and 4.3 of the specification. *)

(** Modelled from the spec: the Messenger capability of section 4.3, which
    the missing [messenger.py] declares.  A pre-hook mutates the message in
    place and may re-enter the applier, which it receives as its first
    argument; a post-hook mutates the message in place. *)
Record Messenger : Type := mkMessenger {
  pre_hook : M Value → M Value;
  post_hook : M Value
}.

(** Modelled from the spec: the instance as a messenger on the stack.  Its
    pre-hook for sample messages is [_pyro_sample]; the class overrides
    nothing else, so its post-hook is the pass-through of the base class of
    the missing [messenger.py]. *)
Definition do_messenger (self : DoMessenger) : Messenger :=
  {| pre_hook := λ apply_stack, _pyro_sample apply_stack self;
     post_hook := ret VNone |}.

(** Modelled from the spec: the message a primitive sample call creates
    (section 3, "created fresh per primitive call", [done=false], no value,
    no intervener stamp); the missing [primitives.py] builds it. *)
Definition fresh_message (name : string) (fn : Distribution)
  : gmap string Value :=
  <["kind" := VStr "SAMPLE"]>
  (<["name" := VStr name]>
  (<["fn" := VDist fn]>
  (<["value" := VNone]>
  (<["is_observed" := VBool false]>
  (<["done" := VBool false]>
  (<["stop" := VBool false]>
  (<["continuation" := VNone]> ∅))))))).

(** Modelled from the spec: the short-circuit test of phase 1 of the missing
    [runtime.py], "a hook may set done=true with a value". *)
Definition short_circuited (msg : gmap string Value) : bool :=
  match msg !! "done", msg !! "value" with
  | Some (VBool true), Some v => is_not_None v
  | _, _ => false
  end.

(** Modelled from the spec: phase 1 of the applier of the missing
    [runtime.py], the pre-hooks in the order given; the result is true when
    the traversal is cut short. *)
Fixpoint phase1 (apply_stack : M Value) (frames : list Messenger) : M bool :=
  match frames with
  | [] => ret false
  | frame :: rest =>
      pre_hook frame apply_stack;;
      msg ← copy;
      if short_circuited msg then ret true else phase1 apply_stack rest
  end.

(** Modelled from the spec: the primitive execution of the missing
    [runtime.py], a draw from the message's distribution or, for an observed
    message, the evaluation of the supplied value, which leaves the message
    as it is. *)
Definition primitive : M unit :=
  observed ← getitem "is_observed";
  match observed with
  | VBool true => ret tt
  | _ =>
      fn ← getitem "fn";
      match fn with
      | VDist d =>
          λ msg st,
            let (t, r) := draw d (rng st) in
            Ok tt (<["value" := VTensor t]> msg)
               (mkState (warnings st) (trace st) r)
      | _ => raise (TypeError "object is not callable")
      end
  end.

(** Modelled from the spec: phase 2 of the applier of the missing
    [runtime.py], the post-hooks in the order given. *)
Fixpoint phase2 (frames : list Messenger) : M unit :=
  match frames with
  | [] => ret tt
  | frame :: rest => post_hook frame;; phase2 rest
  end.

(** Modelled from the spec: the output of the applier of the missing
    [runtime.py].  The resolved message is one site of the execution; it is
    appended to the trace. *)
Definition record_site : M unit :=
  λ msg st, Ok tt msg (mkState (warnings st) (trace st ++ [msg]) (rng st)).

(** Modelled from the spec: the Stack Applier of section 4.2, which the
    missing [runtime.py] defines as [apply_stack].  The stack lists the
    active messengers from the least recently pushed to the most recently
    pushed.  [rec] is the applier a hook re-enters. *)
Definition apply_stack_body (rec : M Value) (stack : list Messenger)
  : M Value :=
  stopped ← phase1 rec (reverse stack);
  (if stopped : bool then ret tt
   else primitive;; setitem "done" (VBool true));;
  phase2 stack;;
  record_site;;
  ret VNone.

(** Modelled from the spec: [apply_stack] of the missing [runtime.py], the
    applier whose hooks re-enter the applier itself.  The fuel bounds the
    nesting depth of the re-entrant calls; with none left the run is cut
    off as [Diverged]. *)
Fixpoint apply_stack (fuel : nat) (stack : list Messenger) : M Value :=
  match fuel with
  | O => λ _ _, Diverged
  | S fuel' => apply_stack_body (apply_stack fuel' stack) stack
  end.

End Messenger.

Arguments Ok {B A} a msg st.
Arguments Raised {B A} e msg st.
Arguments Diverged {B A}.


(** ** Vocabulary of the statements *)

Section Vocabulary.
Context `{B : Backend}.

(* msg.get('_intervener_id', None) *)
Definition stamp_of (msg : gmap string Value) : Value :=
  default VNone (msg !! "_intervener_id").

(* the hook takes its intervening branch on msg: the site is named s, the
   mapping holds v for s, and the stamp is not the instance's own *)
Definition intervenes (self : DoMessenger) (msg : gmap string Value)
    (s : string) (v : Value) : Prop :=
  ne_str (stamp_of msg) (_intervener_id self) = true ∧
  msg !! "name" = Some (VStr s) ∧
  data self !! s = Some v.

(* the stamp is the identity of another instance *)
Definition foreign_stamp (self : DoMessenger) (msg : gmap string Value)
  : Prop :=
  ∃ v, msg !! "_intervener_id" = Some v ∧ v ≠ VNone ∧
       v ≠ VStr (_intervener_id self).

(* the message as line 64 leaves it, which is also the copy of line 67 *)
Definition stamped (self : DoMessenger) (msg : gmap string Value)
  : gmap string Value :=
  <["_intervener_id" := VStr (_intervener_id self)]> msg.

(* the state with one more warning *)
Definition warned (w : Warning) (st : State) : State :=
  mkState (warnings st ++ [w]) (trace st) (rng st).

(* the state in which the fork starts: lines 58-62 have warned or not *)
Definition fork_state (msg : gmap string Value) (s : string) (st : State)
  : State :=
  if is_not_None (stamp_of msg)
  then warned (RuntimeWarning (multiple_times_text (VStr s))) st
  else st.

(* the message after a stochastic intervention with d (lines 72-84) *)
Definition redrawn (self : DoMessenger) (s : string) (d : Distribution)
    (msg : gmap string Value) : gmap string Value :=
  <["fn" := VDist d]>
  (<["is_observed" := VBool false]>
  (<["value" := VNone]>
  (<["done" := VBool false]>
  (<["name" := VStr (s ++ "__CF")]> (stamped self msg))))).

(* the tensor that lines 85-89 store as value: the intervention when it
   is a tensor, torch.tensor(float(v)) when it is a number that float()
   accepts *)
Definition number_or_tensor (v : Value) : option Tensor :=
  match v with
  | VNumber n => match py_float n with
                 | inr x => Some (torch_tensor x)
                 | inl _ => None
                 end
  | VBool b => Some (torch_tensor (float_of_bool b))
  | VTensor t => Some t
  | _ => None
  end.

(* the message after an intervention with the tensor t, delta being the
   point mass that Delta has built on t (lines 72-91) *)
Definition pinned (self : DoMessenger) (s : string) (t : Tensor)
    (delta : Distribution) (msg : gmap string Value) : gmap string Value :=
  <["is_observed" := VBool true]>
  (<["fn" := VDist delta]>
  (<["value" := VTensor t]>
  (<["name" := VStr (s ++ "__CF")]> (stamped self msg)))).

(* the messenger's pre-hook leaves msg and the state as they are, and does
   not re-enter the applier *)
Definition passes (m : Messenger) (msg : gmap string Value) : Prop :=
  ∀ rec st, pre_hook m rec msg st = Ok VNone msg st.

(* the messenger's post-hook always comes back *)
Definition post_hook_returns (m : Messenger) : Prop :=
  ∀ msg st, post_hook m msg st ≠ Diverged.

(* the state after the primitive has drawn from d *)
Definition drawn (d : Distribution) (st : State) : State :=
  mkState (warnings st) (trace st) (draw d (rng st)).2.

(* the state after one more site has been resolved *)
Definition logged (site : gmap string Value) (st : State) : State :=
  mkState (warnings st) (trace st ++ [site]) (rng st).

(* the factual site: the stamped copy, resolved by a draw from d in st *)
Definition factual (self : DoMessenger) (d : Distribution)
    (msg : gmap string Value) (st : State) : gmap string Value :=
  <["done" := VBool true]>
  (<["value" := VTensor (draw d (rng st)).1]> (stamped self msg)).

(* the intervened site: the pinned message, resolved *)
Definition counterfactual (self : DoMessenger) (s : string) (t : Tensor)
    (delta : Distribution) (msg : gmap string Value) : gmap string Value :=
  <["done" := VBool true]> (pinned self s t delta msg).

(* the keys the hook assigns to *)
Definition written : list string :=
  ["_intervener_id"; "name"; "done"; "value"; "is_observed"; "fn"].

(* the message dict as an outcome leaves it *)
Definition message_of {A} (r : Res A) : option (gmap string Value) :=
  match r with
  | Ok _ m _ | Raised _ m _ => Some m
  | Diverged => None
  end.

(* the interpreter state as an outcome leaves it *)
Definition state_of {A} (r : Res A) : option State :=
  match r with
  | Ok _ _ st | Raised _ _ st => Some st
  | Diverged => None
  end.

(* the renamed message, before the intervention is applied (line 72) *)
Definition renamed (self : DoMessenger) (s : string)
    (msg : gmap string Value) : gmap string Value :=
  <["name" := VStr (s ++ "__CF")]> (stamped self msg).

(* two outcomes of an applier that differ at most in the value returned
   and in the message dict the applier was working on *)
Definition same_effect {A} (r1 r2 : Res A) : Prop :=
  match r1, r2 with
  | Ok _ _ st1, Ok _ _ st2 => st1 = st2
  | Raised e1 _ st1, Raised e2 _ st2 => e1 = e2 ∧ st1 = st2
  | Diverged, Diverged => True
  | _, _ => False
  end.

(* an applier that does nothing but log the message it is handed *)
Definition spy : M Value :=
  λ new_msg st, Ok VNone new_msg (logged new_msg st).

End Vocabulary.

(** ** A small concrete backend, to run the definitions on examples

    Floats are the integers (read [2] as [2.0]); a number is an int or a
    complex number; a tensor is its shape and its items; the random source
    is a counter, and a draw from a distribution returns a tensor made of
    the counter. *)
Module Toy.

Inductive number : Type :=
  | Int (z : Z)
  | Complex (re im : Z).

Record tensor : Type := mkTensor { shape : list nat; items : list Z }.

Inductive dist : Type :=
  | Normal (loc scale : Z)
  | MultivariateNormal (dim : nat)
  | PointMass (v : tensor) (event_dim : nat).

Definition dist_event_shape (d : dist) : list nat :=
  match d with
  | Normal _ _ => []
  | MultivariateNormal n => [n]
  | PointMass v k => drop (length (shape v) - k) (shape v)
  end.

Definition dist_draw (d : dist) (seed : nat) : tensor * nat :=
  match d with
  | Normal loc _ => (mkTensor [] [(loc + Z.of_nat seed)%Z], S seed)
  | MultivariateNormal n => (mkTensor [n] (replicate n (Z.of_nat seed)), S seed)
  | PointMass v _ => (v, seed)
  end.

(* float(n): an int converts, a complex number does not *)
Definition number_float (n : number) : Exn + Z :=
  match n with
  | Int z => inr z
  | Complex _ _ =>
      inl (TypeError "float() argument must be a string or a real number")
  end.

(* Delta(v, event_dim=k): k may not exceed the number of dimensions of v *)
Definition point_mass (v : tensor) (k : nat) : Exn + dist :=
  if (k <=? length (shape v))%nat then inr (PointMass v k)
  else inl (ValueError "Expected event_dim <= v.dim()").

#[export] Instance backend : Backend := {|
  Float := Z;
  Number := number;
  Tensor := tensor;
  Distribution := dist;
  Rng := nat;
  py_float := number_float;
  float_of_bool := λ b, if b then 1%Z else 0%Z;
  torch_tensor := λ x, mkTensor [] [x];
  event_shape := dist_event_shape;
  Delta := point_mass;
  draw := dist_draw
|}.

(* a distribution object as a Python value *)
Definition mvn : Value := VDist (MultivariateNormal 2).

(* a Python number of this backend *)
Definition num (z : Z) : Value := VNumber (Int z).

(* the complex number 1j *)
Definition imaginary : Value := VNumber (Complex 0 1).

Definition st0 : State := mkState [] [] 7.

(* the docstring's model: z = pyro.sample("z", dist.Normal(x, s)) *)
Definition z_msg : gmap string Value := fresh_message "z" (Normal 0 1).

Definition x_msg : gmap string Value := fresh_message "x" (Normal 0 1).

(* z = pyro.sample("z", dist.MultivariateNormal(...)), event_shape (2,) *)
Definition mvn_msg : gmap string Value :=
  fresh_message "z" (MultivariateNormal 2).

(* poutine.do(model, data={"z": v}) *)
Definition do_z (v : Value) : DoMessenger := mkDo {["z" := v]} "140230".

(* a second instance on the same site *)
Definition do_z_again : DoMessenger := mkDo {["z" := num 3]} "99".

(* a second instance on the site the first one has renamed *)
Definition do_z_cf : DoMessenger := mkDo {["z__CF" := num 3]} "99".

Definition two : tensor := mkTensor [] [2%Z].

(* poutine.do(model, data={"z": torch.tensor(2.)}), another instance *)
Definition do_z_tensor : DoMessenger := mkDo {["z" := VTensor two]} "99".

(* the message as do_z (VNumber 2) leaves it *)
Definition z_cf_msg : gmap string Value :=
  pinned (do_z (num 2)) "z" two (PointMass two 0) z_msg.

(* a message that comes already resolved *)
Definition done_msg : gmap string Value :=
  <["done" := VBool true]> (<["value" := VTensor (mkTensor [] [5%Z])]> z_msg).

(* messages that lack a key *)
Definition nameless_msg : gmap string Value := delete "name" z_msg.

Definition fn_less_msg : gmap string Value := delete "fn" z_msg.

(* an applier that raises at once *)
Definition raising : M Value :=
  λ new_msg st, Raised (TypeError "object is not callable") new_msg st.

(* an applier that logs the message it is handed, assigns to a key of it
   and returns a string *)
Definition meddling : M Value :=
  λ new_msg st,
    Ok (VStr "done") (<["name" := VStr "other"]> new_msg) (logged new_msg st).

End Toy.

(** ** The hook, branch by branch *)

(* lookups through the writes of the hook *)
Ltac look :=
  repeat (rewrite lookup_insert_eq
          || rewrite lookup_insert_ne by (intro; discriminate)).

Section HookFacts.
Context `{B : Backend}.
Implicit Types (msg m : gmap string Value) (st : State).
Implicit Types (self : DoMessenger) (ap : M Value) (s : string) (v : Value).

Ltac fold_stamp :=
  repeat match goal with
         | |- context [default VNone (?m !! "_intervener_id")] =>
             progress fold (stamp_of m)
         end.

Ltac run :=
  unfold _pyro_sample, mbind, M_bind, bind, get, getitem, setitem, copy,
    warn, call, ret, raise;
  fold_stamp.

(* lines 55-64: the guard holds, the warning is emitted or not, the stamp
   is written; what is left to run is the fork and the intervention *)
Ltac enter Hi Hn Hd :=
  destruct Hi as (Hs & Hn & Hd); run; rewrite Hs, Hn; simpl; rewrite Hd;
  unfold fork_state, stamped, warned in *; fold_stamp;
  match goal with
  | |- context [is_not_None (stamp_of ?m)] =>
      destruct (is_not_None (stamp_of m))
  end;
  rewrite ?Hn; simpl.

Lemma hook_skip ap self msg st :
  stamp_of msg = VStr (_intervener_id self) ∨
  (∃ s, msg !! "name" = Some (VStr s) ∧ data self !! s = None) →
  _pyro_sample ap self msg st = Ok VNone msg st.
Proof.
  intros [Hs | (s & Hn & Hd)]; run.
  - rewrite Hs. simpl. rewrite String.eqb_refl. reflexivity.
  - destruct (ne_str _ _); [|reflexivity].
    rewrite Hn. simpl. rewrite Hd. reflexivity.
Qed.

Lemma hook_fork_raises ap self msg st s v e m2 st2 :
  intervenes self msg s v →
  ap (stamped self msg) (fork_state msg s st) = Raised e m2 st2 →
  _pyro_sample ap self msg st = Raised e (stamped self msg) st2.
Proof. intros Hi Hap. enter Hi Hn Hd; rewrite Hap; reflexivity. Qed.

Lemma hook_fork_diverges ap self msg st s v :
  intervenes self msg s v →
  ap (stamped self msg) (fork_state msg s st) = Diverged →
  _pyro_sample ap self msg st = Diverged.
Proof. intros Hi Hap. enter Hi Hn Hd; rewrite Hap; reflexivity. Qed.

Lemma hook_redrawn ap self msg st s v d x m2 st2 :
  intervenes self msg s v →
  v = VDist d ∨ (v = VNone ∧ msg !! "fn" = Some (VDist d)) →
  ap (stamped self msg) (fork_state msg s st) = Ok x m2 st2 →
  _pyro_sample ap self msg st = Ok VNone (redrawn self s d msg) st2.
Proof.
  intros Hi Hv Hap. unfold redrawn.
  enter Hi Hn Hd; rewrite Hap; look; rewrite Hn; simpl; rewrite Hd; simpl;
    look; rewrite Hn; simpl.
  all: destruct Hv as [-> | [-> Hfn]]; simpl; look; rewrite ?Hfn;
    reflexivity.
Qed.

Lemma hook_pinned ap self msg st s v t d0 delta x m2 st2 :
  intervenes self msg s v →
  number_or_tensor v = Some t →
  msg !! "fn" = Some (VDist d0) →
  Delta t (length (event_shape d0)) = inr delta →
  ap (stamped self msg) (fork_state msg s st) = Ok x m2 st2 →
  _pyro_sample ap self msg st = Ok VNone (pinned self s t delta msg) st2.
Proof.
  intros Hi Ht Hfn Hdelta Hap. unfold pinned.
  enter Hi Hn Hd; rewrite Hap; look; rewrite Hn; simpl; rewrite Hd; simpl;
    look; rewrite Hn; simpl.
  all: destruct v as [| b | text | n | t' | d]; try discriminate;
    simpl in *; try destruct (py_float n); simplify_eq; simpl; look;
    rewrite Hfn; simpl; rewrite Hdelta; reflexivity.
Qed.

(* line 90 raises in Delta: line 89 has run *)
Lemma hook_delta_raises ap self msg st s v t d0 e x m2 st2 :
  intervenes self msg s v →
  number_or_tensor v = Some t →
  msg !! "fn" = Some (VDist d0) →
  Delta t (length (event_shape d0)) = inl e →
  ap (stamped self msg) (fork_state msg s st) = Ok x m2 st2 →
  _pyro_sample ap self msg st =
    Raised e (<["value" := VTensor t]>
                (<["name" := VStr (s ++ "__CF")]> (stamped self msg))) st2.
Proof.
  intros Hi Ht Hfn Hdelta Hap.
  enter Hi Hn Hd; rewrite Hap; look; rewrite Hn; simpl; rewrite Hd; simpl;
    look; rewrite Hn; simpl.
  all: destruct v as [| b | text | n | t' | d]; try discriminate;
    simpl in *; try destruct (py_float n); simplify_eq; simpl; look;
    rewrite Hfn; simpl; rewrite Hdelta; reflexivity.
Qed.

(* line 88 raises in float(): line 89 has not run *)
Lemma hook_float_raises ap self msg st s n e x m2 st2 :
  intervenes self msg s (VNumber n) →
  py_float n = inl e →
  ap (stamped self msg) (fork_state msg s st) = Ok x m2 st2 →
  _pyro_sample ap self msg st =
    Raised e (<["name" := VStr (s ++ "__CF")]> (stamped self msg)) st2.
Proof.
  intros Hi Hfloat Hap.
  enter Hi Hn Hd; rewrite Hap; look; rewrite Hn; simpl; rewrite Hd; simpl;
    look; rewrite Hn; simpl; rewrite Hfloat; reflexivity.
Qed.

Lemma hook_unsupported ap self msg st s text x m2 st2 :
  intervenes self msg s (VStr text) →
  ap (stamped self msg) (fork_state msg s st) = Ok x m2 st2 →
  _pyro_sample ap self msg st =
    Raised (NotImplementedError
              "Interventions of type <class 'str'> not implemented")
           (<["name" := VStr (s ++ "__CF")]> (stamped self msg)) st2.
Proof.
  intros Hi Hap.
  enter Hi Hn Hd; rewrite Hap; look; rewrite Hn; simpl; rewrite Hd; simpl;
    look; rewrite Hn; reflexivity.
Qed.

Lemma hook_returns_or_raises ap self msg st s v :
  intervenes self msg s v →
  ap (stamped self msg) (fork_state msg s st) ≠ Diverged →
  _pyro_sample ap self msg st ≠ Diverged.
Proof.
  intros Hi Hap.
  destruct (ap (stamped self msg) (fork_state msg s st))
    as [x m2 st2|e m2 st2|] eqn:E; [| |done].
  - enter Hi Hn Hd; rewrite E; look; rewrite Hn; simpl; rewrite Hd; simpl;
      look; rewrite Hn; simpl.
    all: destruct v as [| b | text | n | t | d]; simpl;
      try destruct (py_float n); simpl; look;
      destruct (msg !! "fn") as [[| b' | text' | n' | t' | d']|] eqn:Hfn;
      simpl; try destruct (py_float n'); simpl; look; rewrite ?Hfn; simpl;
      try done;
      match goal with
      | |- context [Delta ?t ?k] => destruct (Delta t k); done
      end.
  - erewrite hook_fork_raises; eauto.
Qed.

Lemma redrawn_fields self s d msg :
  redrawn self s d msg !! "name" = Some (VStr (s ++ "__CF")) ∧
  redrawn self s d msg !! "done" = Some (VBool false) ∧
  redrawn self s d msg !! "value" = Some VNone ∧
  redrawn self s d msg !! "is_observed" = Some (VBool false) ∧
  redrawn self s d msg !! "fn" = Some (VDist d) ∧
  redrawn self s d msg !! "_intervener_id" = Some (VStr (_intervener_id self)).
Proof. unfold redrawn, stamped. repeat split; look; reflexivity. Qed.

Lemma pinned_fields self s t d msg :
  pinned self s t d msg !! "name" = Some (VStr (s ++ "__CF")) ∧
  pinned self s t d msg !! "value" = Some (VTensor t) ∧
  pinned self s t d msg !! "fn" = Some (VDist d) ∧
  pinned self s t d msg !! "is_observed" = Some (VBool true) ∧
  pinned self s t d msg !! "done" = msg !! "done" ∧
  pinned self s t d msg !! "_intervener_id" = Some (VStr (_intervener_id self)).
Proof. unfold pinned, stamped. repeat split; look; reflexivity. Qed.

(* line 90 raises in msg['fn'].event_shape: line 89 has run *)
Lemma hook_no_distribution ap self msg st s v t x m2 st2 :
  intervenes self msg s v →
  number_or_tensor v = Some t →
  (∀ d, msg !! "fn" ≠ Some (VDist d)) →
  ap (stamped self msg) (fork_state msg s st) = Ok x m2 st2 →
  _pyro_sample ap self msg st =
    Raised (match msg !! "fn" with
            | None => KeyError "fn"
            | Some _ => AttributeError "event_shape"
            end)
           (<["value" := VTensor t]> (renamed self s msg)) st2.
Proof.
  intros Hi Ht Hfn Hap. unfold renamed.
  enter Hi Hn Hd; rewrite Hap; look; rewrite Hn; simpl; rewrite Hd; simpl;
    look; rewrite Hn; simpl.
  all: destruct v as [| b | text | n | t' | d]; try discriminate;
    simpl in *; try destruct (py_float n); simplify_eq; simpl; look;
    destruct (msg !! "fn") as [[]|] eqn:E; simpl; try reflexivity;
    by destruct (Hfn d).
Qed.

(* a number or tensor intervention, once the fork has returned: the hook
   returns when the message carries a distribution and Delta accepts, and
   raises otherwise; line 89 has run in every case *)
Lemma hook_number_or_tensor ap self msg st s v t x m2 st2 :
  intervenes self msg s v →
  number_or_tensor v = Some t →
  ap (stamped self msg) (fork_state msg s st) = Ok x m2 st2 →
  (∃ delta, _pyro_sample ap self msg st =
              Ok VNone (pinned self s t delta msg) st2) ∨
  (∃ e, _pyro_sample ap self msg st =
          Raised e (<["value" := VTensor t]> (renamed self s msg)) st2).
Proof.
  intros Hi Ht Hap.
  destruct (msg !! "fn") as [fn|] eqn:Hfn.
  - destruct fn as [| b | text | n | t' | d0].
    6: { destruct (Delta t (length (event_shape d0))) as [e|delta] eqn:E.
         - right. exists e. by eapply hook_delta_raises.
         - left. exists delta. by eapply hook_pinned. }
    all: right; eexists; eapply hook_no_distribution; eauto;
      intros d; rewrite Hfn; discriminate.
  - right. eexists. eapply hook_no_distribution; eauto.
    intros d. rewrite Hfn. discriminate.
Qed.

(* two instances that intervene on one message with interventions that
   come to the same tensor leave the same value and is_observed *)
Lemma hook_same_tensor ap self1 self2 msg st s v1 v2 t x1 m1 st1 x2 m2 st2 :
  intervenes self1 msg s v1 →
  intervenes self2 msg s v2 →
  number_or_tensor v1 = Some t →
  number_or_tensor v2 = Some t →
  ap (stamped self1 msg) (fork_state msg s st) = Ok x1 m1 st1 →
  ap (stamped self2 msg) (fork_state msg s st) = Ok x2 m2 st2 →
  ∃ m1' m2',
    message_of (_pyro_sample ap self1 msg st) = Some m1' ∧
    message_of (_pyro_sample ap self2 msg st) = Some m2' ∧
    m1' !! "value" = m2' !! "value" ∧
    m1' !! "is_observed" = m2' !! "is_observed".
Proof.
  intros H1 H2 Ht1 Ht2 Hap1 Hap2.
  assert (Hnone : (∀ d, msg !! "fn" ≠ Some (VDist d)) →
    ∃ m1' m2',
      message_of (_pyro_sample ap self1 msg st) = Some m1' ∧
      message_of (_pyro_sample ap self2 msg st) = Some m2' ∧
      m1' !! "value" = m2' !! "value" ∧
      m1' !! "is_observed" = m2' !! "is_observed").
  { intros Hfn.
    rewrite (hook_no_distribution _ _ _ _ _ _ _ _ _ _ H1 Ht1 Hfn Hap1).
    rewrite (hook_no_distribution _ _ _ _ _ _ _ _ _ _ H2 Ht2 Hfn Hap2).
    do 2 eexists. split; [reflexivity|]. split; [reflexivity|].
    unfold renamed, stamped. split; by look. }
  destruct (msg !! "fn") as [[| b | text | n | t' | d0]|] eqn:Hfn;
    try (apply Hnone; intros d; discriminate).
  destruct (Delta t (length (event_shape d0))) as [e|delta] eqn:Hdelta.
  - rewrite (hook_delta_raises _ _ _ _ _ _ _ _ _ _ _ _ H1 Ht1 Hfn Hdelta Hap1).
    rewrite (hook_delta_raises _ _ _ _ _ _ _ _ _ _ _ _ H2 Ht2 Hfn Hdelta Hap2).
    do 2 eexists. split; [reflexivity|]. split; [reflexivity|].
    unfold stamped. split; by look.
  - rewrite (hook_pinned _ _ _ _ _ _ _ _ _ _ _ _ H1 Ht1 Hfn Hdelta Hap1).
    rewrite (hook_pinned _ _ _ _ _ _ _ _ _ _ _ _ H2 Ht2 Hfn Hdelta Hap2).
    do 2 eexists. split; [reflexivity|]. split; [reflexivity|].
    unfold pinned, stamped. split; by look.
Qed.

(* what the hook does once the fork has returned: the two returns of the
   claims, a raise with the message renamed, or a raise with the message
   renamed and its value overwritten *)
Lemma hook_after_fork ap self msg st s v x m2 st2 :
  intervenes self msg s v →
  ap (stamped self msg) (fork_state msg s st) = Ok x m2 st2 →
  (∃ d, _pyro_sample ap self msg st = Ok VNone (redrawn self s d msg) st2) ∨
  (∃ t d0, _pyro_sample ap self msg st =
             Ok VNone (pinned self s t d0 msg) st2) ∨
  (∃ e, _pyro_sample ap self msg st = Raised e (renamed self s msg) st2) ∨
  (∃ e t, _pyro_sample ap self msg st =
            Raised e (<["value" := VTensor t]> (renamed self s msg)) st2).
Proof.
  intros Hi Hap. unfold redrawn, pinned, renamed.
  enter Hi Hn Hd; rewrite Hap; look; rewrite Hn; simpl; rewrite Hd; simpl;
    look; rewrite Hn; simpl.
  all: destruct v as [| b | text | n | t | d]; simpl;
    try destruct (py_float n); simpl; look;
    destruct (msg !! "fn") as [[| b' | text' | n' | t' | d']|] eqn:Hfn;
    simpl; try destruct (py_float n'); simpl; look; rewrite ?Hfn; simpl;
    try match goal with
        | |- context [Delta ?t ?k] => destruct (Delta t k)
        end;
    first [ left; eexists; reflexivity
          | right; left; do 2 eexists; reflexivity
          | right; right; left; eexists; reflexivity
          | right; right; right; do 2 eexists; reflexivity ].
Qed.

(** C8. When the message's name is not a key of the mapping, or the message
    already carries this instance's stamp, the hook returns at once: the
    message and the interpreter state are what they were, and the applier is
    not re-entered (the result does not depend on it). *)
Theorem skip_leaves_message_unchanged ap self msg st :
  msg !! "_intervener_id" = Some (VStr (_intervener_id self)) ∨
  (∃ s, msg !! "name" = Some (VStr s) ∧ data self !! s = None) →
  _pyro_sample ap self msg st = Ok VNone msg st.
Proof.
  intros [Hs | Hn]; apply hook_skip; [left | right; exact Hn].
  unfold stamp_of. rewrite Hs. reflexivity.
Qed.

(** C2. On an intervened message the renaming of line 72 comes before the
    intervention is looked at: whenever the hook returns, whatever the
    intervention is, the message's name is the original name followed by
    [__CF].  And the hook does return, once the fork has, for each of the
    four kinds: for a distribution, and for None on a message that carries
    a distribution; for a number that [float()] accepts and for a tensor,
    on a message that carries a distribution, when [Delta] accepts the
    tensor with the event dimension of that distribution. *)
Theorem intervened_site_is_renamed ap self msg st s v :
  intervenes self msg s v →
  (∀ a m' st',
     _pyro_sample ap self msg st = Ok a m' st' →
     m' !! "name" = Some (VStr (s ++ "__CF"))) ∧
  (∀ x m2 st2,
     ap (stamped self msg) (fork_state msg s st) = Ok x m2 st2 →
     (∀ d, v = VDist d ∨ (v = VNone ∧ msg !! "fn" = Some (VDist d)) →
           ∃ m', _pyro_sample ap self msg st = Ok VNone m' st2) ∧
     (∀ t d0 delta,
        number_or_tensor v = Some t →
        msg !! "fn" = Some (VDist d0) →
        Delta t (length (event_shape d0)) = inr delta →
        ∃ m', _pyro_sample ap self msg st = Ok VNone m' st2)).
Proof.
  intros Hi. split.
  - intros a m' st' Hrun.
    destruct (ap (stamped self msg) (fork_state msg s st))
      as [x m2 st2|e m2 st2|] eqn:Hap.
    + destruct (hook_after_fork _ _ _ _ _ _ _ _ _ Hi Hap)
        as [[d H] | [(t & d0 & H) | [[e H] | (e & t & H)]]];
        rewrite H in Hrun; try discriminate; injection Hrun as _ <- _.
      * apply redrawn_fields.
      * apply pinned_fields.
    + erewrite hook_fork_raises in Hrun by eauto. discriminate.
    + erewrite hook_fork_diverges in Hrun by eauto. discriminate.
  - intros x m2 st2 Hap. split.
    + intros d Hv. exists (redrawn self s d msg). by eapply hook_redrawn.
    + intros t d0 delta Ht Hfn Hdelta. exists (pinned self s t delta msg).
      by eapply hook_pinned.
Qed.

(** C3. On an intervened message whose intervention is a distribution [d],
    or is None while the message carries the distribution [d], once the fork
    has returned the hook returns with [done] false, [value] None,
    [is_observed] false and [d] as the message's distribution. *)
Theorem distribution_intervention_resets_site ap self msg st s v d x m2 st2 :
  intervenes self msg s v →
  v = VDist d ∨ (v = VNone ∧ msg !! "fn" = Some (VDist d)) →
  ap (stamped self msg) (fork_state msg s st) = Ok x m2 st2 →
  ∃ m', _pyro_sample ap self msg st = Ok VNone m' st2 ∧
        m' !! "done" = Some (VBool false) ∧
        m' !! "value" = Some VNone ∧
        m' !! "is_observed" = Some (VBool false) ∧
        m' !! "fn" = Some (VDist d).
Proof.
  intros Hi Hv Hap. exists (redrawn self s d msg).
  split; [eapply hook_redrawn; eauto|].
  pose proof (redrawn_fields self s d msg). tauto.
Qed.

(** C4, amended. On an intervened message that carries a distribution,
    whose intervention is a number [n] that [float()] accepts or a tensor,
    and for which [Delta] accepts the tensor [t] (for a number, [t] is
    [torch.tensor(float(n))]) with [event_dim] the length of the event shape
    of the distribution carried: once the fork has returned the hook returns
    with [value] the tensor [t], with the distribution that [Delta] has
    built, and with [is_observed] true. *)
Theorem value_intervention_pins_site
    ap self msg st s v t d0 delta x m2 st2 :
  intervenes self msg s v →
  (∃ n f, v = VNumber n ∧ py_float n = inr f ∧ t = torch_tensor f) ∨
  v = VTensor t →
  msg !! "fn" = Some (VDist d0) →
  Delta t (length (event_shape d0)) = inr delta →
  ap (stamped self msg) (fork_state msg s st) = Ok x m2 st2 →
  ∃ m', _pyro_sample ap self msg st = Ok VNone m' st2 ∧
        m' !! "value" = Some (VTensor t) ∧
        m' !! "fn" = Some (VDist delta) ∧
        m' !! "is_observed" = Some (VBool true).
Proof.
  intros Hi Hv Hfn Hdelta Hap. exists (pinned self s t delta msg).
  split.
  - eapply hook_pinned; eauto.
    destruct Hv as [(n & f & -> & Hf & ->) | ->]; simpl;
      [by rewrite Hf | reflexivity].
  - pose proof (pinned_fields self s t delta msg). tauto.
Qed.

Lemma hook_coercion_same_instance ap dict id s n f msg st :
  py_float n = inr f →
  _pyro_sample ap (mkDo (<[s := VNumber n]> dict) id) msg st =
  _pyro_sample ap (mkDo (<[s := VTensor (torch_tensor f)]> dict) id) msg st.
Proof.
  intros Hf. run. cbn [data _intervener_id].
  destruct (ne_str (stamp_of msg) id); [|reflexivity].
  destruct (msg !! "name") as [name|] eqn:Hn; [|reflexivity].
  destruct name as [| |s'| | |]; try reflexivity. cbn [in_dict].
  destruct (decide (s = s')) as [<-|Hne].
  - look. fold_stamp.
    destruct (is_not_None (stamp_of msg)); rewrite ?Hn; simpl;
      destruct (ap _ _); try reflexivity; look; rewrite Hn; simpl; look;
      simpl; look; rewrite Hn; simpl; rewrite Hf; reflexivity.
  - rewrite !lookup_insert_ne by exact Hne.
    destruct (dict !! s') as [v|] eqn:Hd; [|reflexivity]. fold_stamp.
    destruct (is_not_None (stamp_of msg)); rewrite ?Hn; simpl;
      destruct (ap _ _); try reflexivity; look; rewrite Hn; simpl;
      rewrite !lookup_insert_ne by exact Hne; rewrite Hd;
      reflexivity.
Qed.

Lemma foreign_stamp_intervenes self msg s v :
  foreign_stamp self msg →
  msg !! "name" = Some (VStr s) → data self !! s = Some v →
  intervenes self msg s v ∧
  ∀ st, fork_state msg s st =
        warned (RuntimeWarning (multiple_times_text (VStr s))) st.
Proof.
  intros (v0 & Hv0 & Hnone & Hself) Hn Hd.
  assert (Hst : stamp_of msg = v0) by (unfold stamp_of; rewrite Hv0; done).
  split.
  - split; [|done]. rewrite Hst. destruct v0; try reflexivity. simpl.
    destruct (String.eqb_spec s0 (_intervener_id self)); [|reflexivity].
    subst. contradiction.
  - intros st. unfold fork_state. rewrite Hst. destruct v0; done.
Qed.

(** C5. Intervening with a number [n] and intervening with the tensor
    [torch.tensor(f)], [f] being [float(n)], come to the same.  For one
    instance identity, the two hooks have the same outcome on every
    message, in every state and with every applier.  For two instances that
    both intervene on the message, once their forks have returned the two
    hooks leave messages with the same [value] and the same [is_observed],
    whether they return or raise; and both return when the message carries
    a distribution for which [Delta] accepts the tensor. *)
Theorem scalar_and_tensor_interventions_agree :
  (∀ ap dict id s n f msg st,
     py_float n = inr f →
     _pyro_sample ap (mkDo (<[s := VNumber n]> dict) id) msg st =
     _pyro_sample ap (mkDo (<[s := VTensor (torch_tensor f)]> dict) id)
       msg st)
  ∧
  (∀ ap self1 self2 msg st s n f x1 m1 st1 x2 m2 st2,
     py_float n = inr f →
     intervenes self1 msg s (VNumber n) →
     intervenes self2 msg s (VTensor (torch_tensor f)) →
     ap (stamped self1 msg) (fork_state msg s st) = Ok x1 m1 st1 →
     ap (stamped self2 msg) (fork_state msg s st) = Ok x2 m2 st2 →
     (∃ m1' m2',
        message_of (_pyro_sample ap self1 msg st) = Some m1' ∧
        message_of (_pyro_sample ap self2 msg st) = Some m2' ∧
        m1' !! "value" = m2' !! "value" ∧
        m1' !! "is_observed" = m2' !! "is_observed") ∧
     (∀ d0 delta,
        msg !! "fn" = Some (VDist d0) →
        Delta (torch_tensor f) (length (event_shape d0)) = inr delta →
        ∃ m1' m2',
          _pyro_sample ap self1 msg st = Ok VNone m1' st1 ∧
          _pyro_sample ap self2 msg st = Ok VNone m2' st2 ∧
          m1' !! "value" = m2' !! "value" ∧
          m1' !! "is_observed" = m2' !! "is_observed")).
Proof.
  split; [apply hook_coercion_same_instance|].
  intros ap self1 self2 msg st s n f x1 m1 st1 x2 m2 st2 Hf H1 H2 Hap1 Hap2.
  assert (Ht1 : number_or_tensor (VNumber n) = Some (torch_tensor f))
    by (simpl; by rewrite Hf).
  assert (Ht2 : number_or_tensor (VTensor (torch_tensor f)) =
                Some (torch_tensor f)) by reflexivity.
  split; [by eapply hook_same_tensor|].
  intros d0 delta Hfn Hdelta.
  exists (pinned self1 s (torch_tensor f) delta msg),
         (pinned self2 s (torch_tensor f) delta msg).
  split; [by eapply hook_pinned|]. split; [by eapply hook_pinned|].
  unfold pinned. split; by look.
Qed.

(** C6, amended. On an intervened message whose intervention is a string,
    once the fork has returned the hook raises NotImplementedError.  The
    raise comes after lines 64 to 72: the message the caller is left with
    carries the instance's stamp and the mangled name, and agrees with the
    message on entry at every other key. *)
Theorem unsupported_intervention_raises_after_renaming
    ap self msg st s text x m2 st2 :
  intervenes self msg s (VStr text) →
  ap (stamped self msg) (fork_state msg s st) = Ok x m2 st2 →
  ∃ m',
    _pyro_sample ap self msg st =
      Raised (NotImplementedError
                "Interventions of type <class 'str'> not implemented")
             m' st2 ∧
    m' !! "_intervener_id" = Some (VStr (_intervener_id self)) ∧
    m' !! "name" = Some (VStr (s ++ "__CF")) ∧
    ∀ k, k ≠ "_intervener_id" → k ≠ "name" → m' !! k = msg !! k.
Proof.
  intros Hi Hap.
  exists (<["name" := VStr (s ++ "__CF")]> (stamped self msg)).
  split; [eapply hook_unsupported; eauto|].
  unfold stamped. split; [look; reflexivity|]. split; [look; reflexivity|].
  intros k Hk1 Hk2. rewrite !lookup_insert_ne by done. reflexivity.
Qed.

(** C7. On a message named in the mapping that carries the stamp of another
    instance, the hook emits the one warning of lines 59-62 and goes on: the
    fork runs on the message stamped with this instance's identity, in the
    state that holds the one more warning; if the fork raises or does not
    come back, so does the hook; if it returns, the hook applies its own
    intervention and hands back the fork's state, adding no other warning:
    it returns the message redrawn for a distribution (or None), and the
    message pinned for a number or a tensor when [Delta] accepts it. *)
Theorem foreign_stamp_warns_once_and_proceeds ap self msg st s v :
  foreign_stamp self msg →
  msg !! "name" = Some (VStr s) →
  data self !! s = Some v →
  match ap (stamped self msg)
           (warned (RuntimeWarning (multiple_times_text (VStr s))) st) with
  | Diverged => _pyro_sample ap self msg st = Diverged
  | Raised e _ st2 =>
      _pyro_sample ap self msg st = Raised e (stamped self msg) st2
  | Ok _ _ st2 =>
      (∀ d, v = VDist d ∨ (v = VNone ∧ msg !! "fn" = Some (VDist d)) →
            _pyro_sample ap self msg st = Ok VNone (redrawn self s d msg) st2)
      ∧
      (∀ t d0 delta,
         number_or_tensor v = Some t →
         msg !! "fn" = Some (VDist d0) →
         Delta t (length (event_shape d0)) = inr delta →
         _pyro_sample ap self msg st =
           Ok VNone (pinned self s t delta msg) st2)
  end.
Proof.
  intros Hf Hn Hd.
  destruct (foreign_stamp_intervenes self msg s v Hf Hn Hd) as [Hi Hst].
  destruct (ap _ _) as [x m2 st2|e m2 st2|] eqn:Hap;
    rewrite <- Hst in Hap.
  - split; intros; [eapply hook_redrawn | eapply hook_pinned]; eauto.
  - eapply hook_fork_raises; eauto.
  - eapply hook_fork_diverges; eauto.
Qed.

(** C9, amended. For a message whose [done] is true on entry: when the hook
    skips, [value] is what it was; when the hook intervenes with a
    distribution (or with None), [value] is overwritten with None and [done]
    is reset to false; when it intervenes with a number that [float()]
    accepts or with a tensor, [value] is overwritten with the intervention
    tensor and [done] stays true, whether the hook then returns or raises
    in line 90. *)
Theorem done_message_value_is_overwritten_on_intervention ap self msg st :
  msg !! "done" = Some (VBool true) →
  (msg !! "_intervener_id" = Some (VStr (_intervener_id self)) ∨
   (∃ s, msg !! "name" = Some (VStr s) ∧ data self !! s = None) →
   _pyro_sample ap self msg st = Ok VNone msg st)
  ∧
  (∀ s v d x m2 st2,
     intervenes self msg s v →
     v = VDist d ∨ (v = VNone ∧ msg !! "fn" = Some (VDist d)) →
     ap (stamped self msg) (fork_state msg s st) = Ok x m2 st2 →
     ∃ m', _pyro_sample ap self msg st = Ok VNone m' st2 ∧
           m' !! "value" = Some VNone ∧
           m' !! "done" = Some (VBool false))
  ∧
  (∀ s v t x m2 st2,
     intervenes self msg s v →
     number_or_tensor v = Some t →
     ap (stamped self msg) (fork_state msg s st) = Ok x m2 st2 →
     ∃ m', message_of (_pyro_sample ap self msg st) = Some m' ∧
           m' !! "value" = Some (VTensor t) ∧
           m' !! "done" = Some (VBool true)).
Proof.
  intros Hdone. split; [|split].
  - intros [Hs | Hn]; apply hook_skip; [left | right; exact Hn].
    unfold stamp_of. rewrite Hs. reflexivity.
  - intros s v d x m2 st2 Hi Hv Hap. exists (redrawn self s d msg).
    split; [eapply hook_redrawn; eauto|].
    pose proof (redrawn_fields self s d msg). tauto.
  - intros s v t x m2 st2 Hi Ht Hap.
    destruct (hook_number_or_tensor _ _ _ _ _ _ _ _ _ _ Hi Ht Hap)
      as [[delta ->] | [e ->]]; eexists; (split; [reflexivity|]).
    + pose proof (pinned_fields self s t delta msg)
        as (_ & ? & _ & _ & Hd & _).
      rewrite Hd, Hdone. done.
    + unfold renamed, stamped. split; by look.
Qed.

End HookFacts.

(** ** The applier and the fork *)

Section ApplierFacts.
Context `{B : Backend}.
Implicit Types (msg m : gmap string Value) (st : State).
Implicit Types (self : DoMessenger) (rec : M Value) (s : string) (v : Value).

Lemma phase1_cons_ok rec frame rest msg st a m' st' :
  pre_hook frame rec msg st = Ok a m' st' →
  phase1 rec (frame :: rest) msg st =
    if short_circuited m' then Ok true m' st' else phase1 rec rest m' st'.
Proof.
  intros H. simpl. unfold mbind, M_bind, bind, copy. rewrite H.
  destruct (short_circuited m'); reflexivity.
Qed.

Lemma phase1_cons_diverged rec frame rest msg st :
  pre_hook frame rec msg st = Diverged →
  phase1 rec (frame :: rest) msg st = Diverged.
Proof. intros H. simpl. unfold mbind, M_bind, bind. rewrite H. done. Qed.

Lemma apply_stack_body_diverged rec stack msg st :
  phase1 rec (reverse stack) msg st = Diverged →
  apply_stack_body rec stack msg st = Diverged.
Proof.
  intros H. unfold apply_stack_body, mbind, M_bind, bind. rewrite H. done.
Qed.

Lemma short_circuited_stamped self msg :
  short_circuited (stamped self msg) = short_circuited msg.
Proof. unfold short_circuited, stamped. look. reflexivity. Qed.

Lemma stamp_of_stamped self msg :
  stamp_of (stamped self msg) = VStr (_intervener_id self).
Proof. unfold stamp_of, stamped. look. reflexivity. Qed.

(* the primitive resolves an unobserved message by a draw from its fn *)
Lemma primitive_draws_from_fn msg st d :
  msg !! "is_observed" = Some (VBool false) →
  msg !! "fn" = Some (VDist d) →
  primitive msg st =
    Ok tt (<["value" := VTensor (draw d (rng st)).1]> msg) (drawn d st).
Proof.
  intros Ho Hfn. unfold primitive, mbind, M_bind, bind, getitem, drawn.
  rewrite Ho, Hfn. destruct (draw d (rng st)). reflexivity.
Qed.

(* the primitive leaves an observed message as it is *)
Lemma primitive_keeps_observed msg st :
  msg !! "is_observed" = Some (VBool true) →
  primitive msg st = Ok tt msg st.
Proof.
  intros Ho. unfold primitive, mbind, M_bind, bind, getitem.
  rewrite Ho. reflexivity.
Qed.

Lemma primitive_total msg st : primitive msg st ≠ Diverged.
Proof.
  unfold primitive, mbind, M_bind, bind, getitem, raise, ret.
  destruct (msg !! "is_observed") as [[|[]| | | |]|]; try done;
    destruct (msg !! "fn") as [[| | | | |fn]|]; try done;
    destruct (draw fn (rng st)); done.
Qed.

Lemma phase2_total frames msg st :
  Forall post_hook_returns frames → phase2 frames msg st ≠ Diverged.
Proof.
  intros H. revert msg st. induction H as [|frame rest Hf _ IH]; [done|].
  intros msg st. simpl. unfold mbind, M_bind, bind.
  specialize (Hf msg st). destruct (post_hook frame msg st); [apply IH|done..].
Qed.

Lemma phase1_passes rec frames msg st :
  Forall (λ frame, passes frame msg) frames →
  ∃ b, phase1 rec frames msg st = Ok b msg st.
Proof.
  induction 1 as [|frame rest Hf _ IH]; [by exists false|].
  rewrite (phase1_cons_ok _ _ _ _ _ _ _ _ (Hf rec st)).
  destruct (short_circuited msg); [by exists true | exact IH].
Qed.

Lemma instance_passes_own_stamp self msg :
  stamp_of msg = VStr (_intervener_id self) → passes (do_messenger self) msg.
Proof. intros H rec st. simpl. by apply hook_skip; left. Qed.

Lemma instance_passes_other_site self msg s :
  msg !! "name" = Some (VStr s) → data self !! s = None →
  passes (do_messenger self) msg.
Proof. intros Hn Hd rec st. simpl. apply hook_skip. right. eauto. Qed.

(* one messenger on the stack, whose pre-hook has returned without cutting
   the traversal short and whose post-hook is the base class's *)
Lemma apply_stack_body_single rec frame msg st a m' st' :
  pre_hook frame rec msg st = Ok a m' st' →
  short_circuited m' = false →
  post_hook frame = ret VNone →
  apply_stack_body rec [frame] msg st =
    match primitive m' st' with
    | Ok _ m'' st'' =>
        Ok VNone (<["done" := VBool true]> m'')
           (logged (<["done" := VBool true]> m'') st'')
    | Raised e m'' st'' => Raised e m'' st''
    | Diverged => Diverged
    end.
Proof.
  intros Hpre Hsc Hpost. unfold apply_stack_body.
  change (reverse [frame]) with [frame].
  unfold mbind at 1. unfold M_bind, bind.
  rewrite (phase1_cons_ok _ _ _ _ _ _ _ _ Hpre), Hsc. simpl.
  unfold mbind, M_bind, bind, setitem, record_site, ret, logged.
  rewrite Hpost. unfold ret.
  destruct (primitive m' st'); reflexivity.
Qed.

Lemma fork_alone rec self msg st d0 :
  msg !! "is_observed" = Some (VBool false) →
  msg !! "done" = Some (VBool false) →
  msg !! "fn" = Some (VDist d0) →
  apply_stack_body rec [do_messenger self] (stamped self msg) st =
    Ok VNone (factual self d0 msg st)
       (logged (factual self d0 msg st) (drawn d0 st)).
Proof.
  intros Ho Hdone Hfn.
  erewrite apply_stack_body_single; [| |by rewrite short_circuited_stamped;
    unfold short_circuited; rewrite Hdone|reflexivity].
  2: { simpl. apply hook_skip. left. apply stamp_of_stamped. }
  rewrite (primitive_draws_from_fn _ _ d0);
    [reflexivity | unfold stamped; look; done..].
Qed.

Lemma apply_stack_body_returns_or_raises rec stack msg st :
  Forall (λ frame, passes frame msg) stack →
  Forall post_hook_returns stack →
  apply_stack_body rec stack msg st ≠ Diverged.
Proof.
  intros Hpass Hpost. unfold apply_stack_body.
  apply Forall_reverse in Hpass.
  destruct (phase1_passes rec _ msg st Hpass) as [b Hb].
  unfold mbind at 1. unfold M_bind, bind. rewrite Hb.
  unfold mbind, M_bind, bind, setitem, record_site, ret.
  destruct b.
  - pose proof (phase2_total stack msg st Hpost).
    destruct (phase2 stack msg st); done.
  - pose proof (primitive_total msg st).
    destruct (primitive msg st) as [[] m' st'| |]; [|done..].
    pose proof (phase2_total stack (<["done" := VBool true]> m') st' Hpost).
    destruct (phase2 stack _ st'); done.
Qed.

(* two instances with distinct identities that both hold the site: each
   one's fork is intervened on by the other, whatever the nesting budget *)
Lemma two_instances_ping_pong a b s fuel :
  _intervener_id a ≠ _intervener_id b →
  is_Some (data a !! s) → is_Some (data b !! s) →
  ∀ msg st,
    msg !! "name" = Some (VStr s) → short_circuited msg = false →
    apply_stack fuel [do_messenger a; do_messenger b] msg st = Diverged.
Proof.
  intros Hab [va Ha] [vb Hb].
  induction fuel as [|fuel IH]; intros msg st Hn Hsc; [reflexivity|].
  assert (Hfork : ∀ self st',
            apply_stack fuel [do_messenger a; do_messenger b]
              (stamped self msg) st' = Diverged).
  { intros self st'. apply IH.
    - unfold stamped. look. exact Hn.
    - rewrite short_circuited_stamped. exact Hsc. }
  simpl. apply apply_stack_body_diverged.
  change (reverse [do_messenger a; do_messenger b])
    with [do_messenger b; do_messenger a].
  destruct (ne_str (stamp_of msg) (_intervener_id b)) eqn:Hsb.
  - apply phase1_cons_diverged. simpl.
    eapply (hook_fork_diverges _ b msg st s vb); [done|apply Hfork].
  - assert (Hst : stamp_of msg = VStr (_intervener_id b)).
    { destruct (stamp_of msg); try discriminate. simpl in Hsb.
      apply negb_false_iff, String.eqb_eq in Hsb. by subst. }
    erewrite phase1_cons_ok; [|simpl; apply hook_skip; left; exact Hst].
    rewrite Hsc. apply phase1_cons_diverged. simpl.
    eapply (hook_fork_diverges _ a msg st s va); [|apply Hfork].
    split; [|done]. rewrite Hst. simpl.
    apply negb_true_iff, String.eqb_neq. congruence.
Qed.

(* as apply_stack_body_single, for a pre-hook that leaves the message
   done with a value: the primitive is skipped *)
Lemma apply_stack_body_single_cut rec frame msg st a m' st' :
  pre_hook frame rec msg st = Ok a m' st' →
  short_circuited m' = true →
  post_hook frame = ret VNone →
  apply_stack_body rec [frame] msg st = Ok VNone m' (logged m' st').
Proof.
  intros Hpre Hsc Hpost. unfold apply_stack_body.
  change (reverse [frame]) with [frame].
  unfold mbind at 1. unfold M_bind, bind.
  rewrite (phase1_cons_ok _ _ _ _ _ _ _ _ Hpre), Hsc. simpl.
  unfold mbind, M_bind, bind, setitem, record_site, ret, logged.
  rewrite Hpost. reflexivity.
Qed.

(* the instance alone on the stack, a number or a tensor as intervention *)
Lemma pinned_run self msg st s v t d0 delta fuel :
  intervenes self msg s v →
  number_or_tensor v = Some t →
  msg !! "fn" = Some (VDist d0) →
  Delta t (length (event_shape d0)) = inr delta →
  msg !! "is_observed" = Some (VBool false) →
  msg !! "done" = Some (VBool false) →
  let st1 := fork_state msg s st in
  let site1 := factual self d0 msg st1 in
  let site2 := counterfactual self s t delta msg in
  _pyro_sample (apply_stack (S fuel) [do_messenger self]) self msg st =
    Ok VNone (pinned self s t delta msg) (logged site1 (drawn d0 st1)) ∧
  apply_stack (S (S fuel)) [do_messenger self] msg st =
    Ok VNone site2 (logged site2 (logged site1 (drawn d0 st1))).
Proof.
  intros Hi Ht Hfn Hdelta Ho Hdone st1 site1 site2.
  assert (Hhook : _pyro_sample (apply_stack (S fuel) [do_messenger self])
                    self msg st =
                  Ok VNone (pinned self s t delta msg)
                     (logged site1 (drawn d0 st1))).
  { eapply hook_pinned; eauto. simpl. apply fork_alone; done. }
  split; [exact Hhook|].
  destruct (pinned_fields self s t delta msg) as (_ & _ & _ & Hp4 & Hp5 & _).
  change (apply_stack (S (S fuel)) [do_messenger self] msg st)
    with (apply_stack_body (apply_stack (S fuel) [do_messenger self])
            [do_messenger self] msg st).
  erewrite apply_stack_body_single;
    [|exact Hhook
     |unfold short_circuited; rewrite Hp5, Hdone; reflexivity
     |reflexivity].
  rewrite primitive_keeps_observed by exact Hp4. reflexivity.
Qed.



(** C10, amended. On an intervened message the stamp is written before the
    copy is taken, so the copy carries the instance's stamp, and the
    instance's hook skips on it without re-entering the applier.  When every
    other messenger on the stack passes the copy through and has a post-hook
    that comes back, the fork completes within a nesting budget of one (no
    further re-entrant applier call) and the hook terminates. *)
Theorem fork_skips_and_hook_terminates self stack msg st s v :
  intervenes self msg s v →
  Forall (λ frame, frame = do_messenger self ∨
                   (passes frame (stamped self msg) ∧
                    post_hook_returns frame)) stack →
  stamped self msg !! "_intervener_id" = Some (VStr (_intervener_id self)) ∧
  (∀ rec st', _pyro_sample rec self (stamped self msg) st' =
                Ok VNone (stamped self msg) st') ∧
  (∀ st', apply_stack 1 stack (stamped self msg) st' ≠ Diverged) ∧
  (∀ fuel, _pyro_sample (apply_stack (S fuel) stack) self msg st ≠ Diverged).
Proof.
  intros Hi Hstack.
  assert (Hself : passes (do_messenger self) (stamped self msg))
    by apply instance_passes_own_stamp, stamp_of_stamped.
  assert (Hpass : Forall (λ frame, passes frame (stamped self msg)) stack).
  { eapply Forall_impl; [exact Hstack|]. intros frame [-> | [? _]]; done. }
  assert (Hpost : Forall post_hook_returns stack).
  { eapply Forall_impl; [exact Hstack|]. intros frame [-> | [_ ?]]; done. }
  split; [unfold stamped; look; reflexivity|].
  split; [intros rec st'; apply (Hself rec st')|].
  split.
  - intros st'. simpl. by apply apply_stack_body_returns_or_raises.
  - intros fuel. eapply hook_returns_or_raises; [exact Hi|].
    simpl. by apply apply_stack_body_returns_or_raises.
Qed.

End ApplierFacts.

(** ** The statements at concrete inputs *)

Section Examples.
Import Toy.

Lemma z_intervenes v : intervenes (do_z v) z_msg "z" v.
Proof. repeat split; vm_compute; reflexivity. Qed.

Lemma z_fn : z_msg !! "fn" = Some (VDist (Normal 0 1)).
Proof. vm_compute; reflexivity. Qed.

Lemma z_is_observed : z_msg !! "is_observed" = Some (VBool false).
Proof. vm_compute; reflexivity. Qed.

Lemma z_done : z_msg !! "done" = Some (VBool false).
Proof. vm_compute; reflexivity. Qed.

(* the applier, with the instance alone on the stack, resolves the stamped
   copy of z_msg by a draw *)
Lemma z_fork fuel v :
  apply_stack (S fuel) [do_messenger (do_z v)] (stamped (do_z v) z_msg)
    (fork_state z_msg "z" st0) =
  Ok VNone (factual (do_z v) (Normal 0 1) z_msg st0)
     (logged (factual (do_z v) (Normal 0 1) z_msg st0)
        (drawn (Normal 0 1) st0)).
Proof.
  change (fork_state z_msg "z" st0) with st0. cbn [apply_stack].
  apply fork_alone; [apply z_is_observed | apply z_done | apply z_fn].
Qed.

(* and leaves the stamped copy of done_msg as it is *)
Lemma done_fork v :
  apply_stack 1 [do_messenger (do_z v)] (stamped (do_z v) done_msg)
    (fork_state done_msg "z" st0) =
  Ok VNone (stamped (do_z v) done_msg)
     (logged (stamped (do_z v) done_msg) st0).
Proof.
  change (fork_state done_msg "z" st0) with st0. cbn [apply_stack].
  eapply apply_stack_body_single_cut; [|vm_compute; reflexivity|reflexivity].
  simpl. apply hook_skip. left. apply stamp_of_stamped.
Qed.

(* the same on the stamped copy of mvn_msg *)
Lemma mvn_fork v :
  apply_stack 1 [do_messenger (do_z v)] (stamped (do_z v) mvn_msg)
    (fork_state mvn_msg "z" st0) =
  Ok VNone (factual (do_z v) (MultivariateNormal 2) mvn_msg st0)
     (logged (factual (do_z v) (MultivariateNormal 2) mvn_msg st0)
        (drawn (MultivariateNormal 2) st0)).
Proof.
  change (fork_state mvn_msg "z" st0) with st0. cbn [apply_stack].
  apply fork_alone; vm_compute; reflexivity.
Qed.

Lemma skip_leaves_message_unchanged_witness :
  (∃ s, x_msg !! "name" = Some (VStr s) ∧ data (do_z (num 2)) !! s = None) ∧
  _pyro_sample (apply_stack 1 [do_messenger (do_z (num 2))])
    (do_z (num 2)) x_msg st0 = Ok VNone x_msg st0.
Proof.
  assert (H : ∃ s, x_msg !! "name" = Some (VStr s) ∧
                   data (do_z (num 2)) !! s = None)
    by (exists "x"; split; vm_compute; reflexivity).
  split; [exact H|].
  apply skip_leaves_message_unchanged. right. exact H.
Defined.

Lemma intervened_site_is_renamed_witness :
  (∃ m', _pyro_sample (apply_stack 1 [do_messenger (do_z (num 2))])
           (do_z (num 2)) z_msg st0 =
         Ok VNone m'
            (logged (factual (do_z (num 2)) (Normal 0 1) z_msg st0)
               (drawn (Normal 0 1) st0))) ∧
  (∀ a m' st',
     _pyro_sample (apply_stack 1 [do_messenger (do_z (num 2))])
       (do_z (num 2)) z_msg st0 = Ok a m' st' →
     m' !! "name" = Some (VStr "z__CF")).
Proof.
  destruct (intervened_site_is_renamed (B:=backend)
              (apply_stack 1 [do_messenger (do_z (num 2))]) (do_z (num 2))
              z_msg st0 "z" (num 2) (z_intervenes (num 2))) as [H1 H2].
  split; [|exact H1].
  apply (proj2 (H2 _ _ _ (z_fork 0 (num 2))) two (Normal 0 1)
           (PointMass two 0)).
  - reflexivity.
  - apply z_fn.
  - reflexivity.
Defined.

Lemma distribution_intervention_resets_site_witness :
  ∃ m', _pyro_sample (apply_stack 1 [do_messenger (do_z mvn)])
          (do_z mvn) z_msg st0 =
        Ok VNone m'
           (logged (factual (do_z mvn) (Normal 0 1) z_msg st0)
              (drawn (Normal 0 1) st0)) ∧
        m' !! "done" = Some (VBool false) ∧
        m' !! "value" = Some VNone ∧
        m' !! "is_observed" = Some (VBool false) ∧
        m' !! "fn" = Some mvn.
Proof.
  eapply (distribution_intervention_resets_site (B:=backend) _ (do_z mvn)
            z_msg st0 "z" mvn (MultivariateNormal 2)).
  - repeat split; vm_compute; reflexivity.
  - left. reflexivity.
  - exact (z_fork 0 mvn).
Defined.

Lemma value_intervention_pins_site_witness :
  ∃ m', _pyro_sample (apply_stack 1 [do_messenger (do_z (num 2))])
          (do_z (num 2)) z_msg st0 =
        Ok VNone m'
           (logged (factual (do_z (num 2)) (Normal 0 1) z_msg st0)
              (drawn (Normal 0 1) st0)) ∧
        m' !! "value" = Some (VTensor two) ∧
        m' !! "fn" = Some (VDist (PointMass two 0)) ∧
        m' !! "is_observed" = Some (VBool true).
Proof.
  eapply (value_intervention_pins_site (B:=backend) _ (do_z (num 2)) z_msg
            st0 "z" (num 2) two (Normal 0 1) (PointMass two 0)).
  - apply z_intervenes.
  - left. do 2 eexists. repeat split; reflexivity.
  - apply z_fn.
  - reflexivity.
  - exact (z_fork 0 (num 2)).
Defined.

Lemma scalar_and_tensor_interventions_agree_witness :
  ∃ st1 st2 m1' m2',
    _pyro_sample (apply_stack 2 [do_messenger (do_z (num 2))])
      (do_z (num 2)) z_msg st0 = Ok VNone m1' st1 ∧
    _pyro_sample (apply_stack 2 [do_messenger (do_z (num 2))])
      do_z_tensor z_msg st0 = Ok VNone m2' st2 ∧
    m1' !! "value" = m2' !! "value" ∧
    m1' !! "is_observed" = m2' !! "is_observed".
Proof.
  assert (H2 : intervenes do_z_tensor z_msg "z" (VTensor two))
    by (repeat split; vm_compute; reflexivity).
  assert (Hfork2 :
    apply_stack 2 [do_messenger (do_z (num 2))] (stamped do_z_tensor z_msg)
      (fork_state z_msg "z" st0) =
    Ok VNone
      (counterfactual (do_z (num 2)) "z" two (PointMass two 0)
         (stamped do_z_tensor z_msg))
      (logged
         (counterfactual (do_z (num 2)) "z" two (PointMass two 0)
            (stamped do_z_tensor z_msg))
         (logged
            (factual (do_z (num 2)) (Normal 0 1) (stamped do_z_tensor z_msg)
               (fork_state (stamped do_z_tensor z_msg) "z" st0))
            (drawn (Normal 0 1)
               (fork_state (stamped do_z_tensor z_msg) "z" st0))))).
  { refine (proj2 (pinned_run (B:=backend) (do_z (num 2))
                     (stamped do_z_tensor z_msg) st0 "z" (num 2) two
                     (Normal 0 1) (PointMass two 0) 0 _ _ _ _ _ _)).
    - repeat split; vm_compute; reflexivity.
    - reflexivity.
    - vm_compute; reflexivity.
    - reflexivity.
    - vm_compute; reflexivity.
    - vm_compute; reflexivity. }
  do 2 eexists.
  exact (proj2 (proj2 (scalar_and_tensor_interventions_agree (B:=backend))
                  (apply_stack 2 [do_messenger (do_z (num 2))])
                  (do_z (num 2)) do_z_tensor z_msg st0 "z" (Int 2) 2%Z
                  _ _ _ _ _ _ eq_refl (z_intervenes (num 2)) H2
                  (z_fork 1 (num 2)) Hfork2)
           (Normal 0 1) (PointMass two 0) z_fn eq_refl).
Defined.

Lemma unsupported_intervention_raises_after_renaming_witness :
  ∃ m',
    _pyro_sample (apply_stack 1 [do_messenger (do_z (VStr "a"))])
      (do_z (VStr "a")) z_msg st0 =
      Raised (NotImplementedError
                "Interventions of type <class 'str'> not implemented")
             m'
             (logged (factual (do_z (VStr "a")) (Normal 0 1) z_msg st0)
                (drawn (Normal 0 1) st0)) ∧
    m' !! "_intervener_id" = Some (VStr "140230") ∧
    m' !! "name" = Some (VStr "z__CF") ∧
    ∀ k, k ≠ "_intervener_id" → k ≠ "name" → m' !! k = z_msg !! k.
Proof.
  eapply (unsupported_intervention_raises_after_renaming (B:=backend) _
            (do_z (VStr "a")) z_msg st0 "z" "a").
  - repeat split; vm_compute; reflexivity.
  - exact (z_fork 0 (VStr "a")).
Defined.

Lemma foreign_stamp_warns_once_and_proceeds_witness :
  match apply_stack 1 [do_messenger do_z_cf; do_messenger (do_z (num 2))]
          (stamped do_z_cf z_cf_msg)
          (warned (RuntimeWarning (multiple_times_text (VStr "z__CF"))) st0)
  with
  | Diverged =>
      _pyro_sample
        (apply_stack 1 [do_messenger do_z_cf; do_messenger (do_z (num 2))])
        do_z_cf z_cf_msg st0 = Diverged
  | Raised e _ st2 =>
      _pyro_sample
        (apply_stack 1 [do_messenger do_z_cf; do_messenger (do_z (num 2))])
        do_z_cf z_cf_msg st0 = Raised e (stamped do_z_cf z_cf_msg) st2
  | Ok _ _ st2 =>
      (∀ d, num 3 = VDist d ∨
            (num 3 = VNone ∧ z_cf_msg !! "fn" = Some (VDist d)) →
            _pyro_sample
              (apply_stack 1
                 [do_messenger do_z_cf; do_messenger (do_z (num 2))])
              do_z_cf z_cf_msg st0 =
            Ok VNone (redrawn do_z_cf "z__CF" d z_cf_msg) st2)
      ∧
      (∀ t d0 delta,
         number_or_tensor (num 3) = Some t →
         z_cf_msg !! "fn" = Some (VDist d0) →
         Delta t (length (event_shape d0)) = inr delta →
         _pyro_sample
           (apply_stack 1
              [do_messenger do_z_cf; do_messenger (do_z (num 2))])
           do_z_cf z_cf_msg st0 =
         Ok VNone (pinned do_z_cf "z__CF" t delta z_cf_msg) st2)
  end.
Proof.
  apply (foreign_stamp_warns_once_and_proceeds (B:=backend)
           (apply_stack 1 [do_messenger do_z_cf; do_messenger (do_z (num 2))])
           do_z_cf z_cf_msg st0 "z__CF" (num 3)).
  - exists (VStr "140230").
    split; [vm_compute; reflexivity | split; discriminate].
  - vm_compute; reflexivity.
  - vm_compute; reflexivity.
Defined.

Lemma done_message_value_is_overwritten_on_intervention_witness :
  done_msg !! "done" = Some (VBool true) ∧
  ∃ m',
    message_of
      (_pyro_sample (apply_stack 1 [do_messenger (do_z (num 2))])
         (do_z (num 2)) done_msg st0) = Some m' ∧
    m' !! "value" = Some (VTensor two) ∧
    m' !! "done" = Some (VBool true).
Proof.
  assert (H : done_msg !! "done" = Some (VBool true))
    by (vm_compute; reflexivity).
  split; [exact H|].
  eapply (proj2 (proj2
            (done_message_value_is_overwritten_on_intervention (B:=backend)
               (apply_stack 1 [do_messenger (do_z (num 2))])
               (do_z (num 2)) done_msg st0 H))
            "z" (num 2) two).
  - repeat split; vm_compute; reflexivity.
  - reflexivity.
  - exact (done_fork (num 2)).
Defined.


Lemma fork_skips_and_hook_terminates_witness :
  apply_stack 1 [do_messenger do_z_cf; do_messenger (do_z (num 2))]
    (stamped (do_z (num 2)) z_msg) st0 ≠ Diverged ∧
  _pyro_sample
    (apply_stack 2 [do_messenger do_z_cf; do_messenger (do_z (num 2))])
    (do_z (num 2)) z_msg st0 ≠ Diverged.
Proof.
  destruct (fork_skips_and_hook_terminates (B:=backend) (do_z (num 2))
              [do_messenger do_z_cf; do_messenger (do_z (num 2))]
              z_msg st0 "z" (num 2)) as (_ & _ & H3 & H4).
  - repeat split; vm_compute; reflexivity.
  - constructor; [|constructor; [left; reflexivity | constructor]].
    right. split; [|intros msg st; discriminate].
    apply (instance_passes_other_site (B:=backend) _ _ "z");
      vm_compute; reflexivity.
  - split; [apply H3 | apply (H4 1)].
Defined.


(** C4, as stated, fails: a number given for a site whose distribution has
    a non-empty event shape is refused by [Delta] in line 90; the hook
    raises, and the message it leaves is not observed. *)
Lemma scalar_on_a_multivariate_site_is_not_pinned :
  ¬ ∃ m',
      message_of
        (_pyro_sample (apply_stack 1 [do_messenger (do_z (num 2))])
           (do_z (num 2)) mvn_msg st0) = Some m' ∧
      m' !! "is_observed" = Some (VBool true).
Proof.
  intros (m' & Hrun & Hobs).
  assert (Hi : intervenes (do_z (num 2)) mvn_msg "z" (num 2))
    by (repeat split; vm_compute; reflexivity).
  assert (Hfn : mvn_msg !! "fn" = Some (VDist (MultivariateNormal 2)))
    by (vm_compute; reflexivity).
  rewrite (hook_delta_raises (B:=backend) _ (do_z (num 2)) mvn_msg st0 "z"
             (num 2) two (MultivariateNormal 2) _ _ _ _ Hi eq_refl Hfn
             eq_refl (mvn_fork (num 2))) in Hrun.
  injection Hrun as <-. revert Hobs. unfold stamped. look.
  vm_compute. discriminate.
Qed.

(** C6, as stated, fails: when NotImplementedError reaches the caller, the
    message is not the one the hook was given. *)
Lemma unsupported_intervention_leaves_message_changed :
  ¬ ∀ e m' st',
      _pyro_sample (apply_stack 1 [do_messenger (do_z (VStr "a"))])
        (do_z (VStr "a")) z_msg st0 = Raised e m' st' →
      m' = z_msg.
Proof.
  intros H.
  assert (Hrun := hook_unsupported (B:=backend)
                    (apply_stack 1 [do_messenger (do_z (VStr "a"))])
                    (do_z (VStr "a")) z_msg st0 "z" "a" _ _ _
                    (z_intervenes (VStr "a")) (z_fork 0 (VStr "a"))).
  apply H in Hrun. apply (f_equal (λ m, m !! "name")) in Hrun.
  revert Hrun. look. vm_compute. discriminate.
Qed.

(** C9, as stated, fails: a message that enters with [done] true and a
    value leaves the hook with the intervention tensor as its value. *)
Lemma done_message_value_overwritten :
  ¬ ∀ a m' st',
      _pyro_sample (apply_stack 1 [do_messenger (do_z (num 2))])
        (do_z (num 2)) done_msg st0 = Ok a m' st' →
      m' !! "value" = done_msg !! "value".
Proof.
  intros H.
  assert (Hi : intervenes (do_z (num 2)) done_msg "z" (num 2))
    by (repeat split; vm_compute; reflexivity).
  assert (Hfn : done_msg !! "fn" = Some (VDist (Normal 0 1)))
    by (vm_compute; reflexivity).
  assert (Hrun := hook_pinned (B:=backend) _ (do_z (num 2)) done_msg st0 "z"
                    (num 2) two (Normal 0 1) (PointMass two 0) _ _ _ Hi
                    eq_refl Hfn eq_refl (done_fork (num 2))).
  apply H in Hrun. revert Hrun.
  destruct (pinned_fields (do_z (num 2)) "z" two (PointMass two 0) done_msg)
    as (_ & -> & _).
  vm_compute. discriminate.
Qed.

(** C10, as stated, fails: with a second instance on the stack that holds
    the same site, the hook does not come back, whatever the depth allowed
    to the nested applier calls. *)
Lemma two_interventions_on_a_site_do_not_terminate :
  ¬ ∃ fuel,
      _pyro_sample
        (apply_stack fuel
           [do_messenger do_z_again; do_messenger (do_z (num 2))])
        (do_z (num 2)) z_msg st0 ≠ Diverged.
Proof.
  intros [fuel H]. apply H.
  eapply hook_fork_diverges; [apply (z_intervenes (num 2))|].
  apply (two_instances_ping_pong (B:=backend) _ _ "z").
  - discriminate.
  - eexists. vm_compute; reflexivity.
  - eexists. vm_compute; reflexivity.
  - vm_compute; reflexivity.
  - vm_compute; reflexivity.
Qed.

End Examples.

(** ** Further facts about the hook: errors, frame, composition *)

Section HookOutcomes.
Context `{B : Backend}.
Implicit Types (msg m : gmap string Value) (st : State).
Implicit Types (self : DoMessenger) (ap : M Value) (s : string) (v : Value).

Ltac fold_stamp :=
  repeat match goal with
         | |- context [default VNone (?m !! "_intervener_id")] =>
             progress fold (stamp_of m)
         end.

Ltac run :=
  unfold _pyro_sample, mbind, M_bind, bind, get, getitem, setitem, copy,
    warn, call, ret, raise;
  fold_stamp.

Ltac enter Hi Hn Hd :=
  destruct Hi as (Hs & Hn & Hd); run; rewrite Hs, Hn; simpl; rewrite Hd;
  unfold fork_state, stamped, warned in *; fold_stamp;
  match goal with
  | |- context [is_not_None (stamp_of ?m)] =>
      destruct (is_not_None (stamp_of m))
  end;
  rewrite ?Hn; simpl.

Lemma ne_str_true v s : ne_str v s = true ↔ v ≠ VStr s.
Proof.
  destruct v; simpl; try (split; [discriminate|reflexivity]).
  rewrite negb_true_iff, String.eqb_neq. split; congruence.
Qed.

Lemma ne_str_false v s : ne_str v s = false ↔ v = VStr s.
Proof.
  destruct v; simpl; try (split; discriminate).
  rewrite negb_false_iff, String.eqb_eq. split; congruence.
Qed.

(* line 55 false: the name is not looked at *)
Lemma hook_own_stamp ap self msg st :
  stamp_of msg = VStr (_intervener_id self) →
  _pyro_sample ap self msg st = Ok VNone msg st.
Proof. intros H. apply hook_skip. by left. Qed.

(* line 56 raises *)
Lemma hook_no_name ap self msg st :
  stamp_of msg ≠ VStr (_intervener_id self) →
  msg !! "name" = None →
  _pyro_sample ap self msg st = Raised (KeyError "name") msg st.
Proof.
  intros Hs Hn. apply ne_str_true in Hs. run. rewrite Hs, Hn. reflexivity.
Qed.

(* line 56 false *)
Lemma hook_not_in_data ap self msg st name :
  msg !! "name" = Some name →
  in_dict name (data self) = false →
  _pyro_sample ap self msg st = Ok VNone msg st.
Proof.
  intros Hn Hd. run. destruct (ne_str _ _); [|reflexivity].
  rewrite Hn. simpl. rewrite Hd. reflexivity.
Qed.

Lemma in_dict_true name dict :
  in_dict name dict = true → ∃ s v, name = VStr s ∧ dict !! s = Some v.
Proof.
  destruct name; try discriminate. simpl.
  destruct (dict !! s) eqn:E; [eauto|discriminate].
Qed.

(* the four ways through lines 55-56 *)
Lemma hook_cases ap self msg st :
  _pyro_sample ap self msg st = Ok VNone msg st ∨
  _pyro_sample ap self msg st = Raised (KeyError "name") msg st ∨
  ∃ s v, intervenes self msg s v.
Proof.
  destruct (ne_str (stamp_of msg) (_intervener_id self)) eqn:Hs.
  - destruct (msg !! "name") as [name|] eqn:Hn.
    + destruct (in_dict name (data self)) eqn:Hd.
      * right; right. apply in_dict_true in Hd as (s & v & -> & Hd).
        by exists s, v.
      * left. by eapply hook_not_in_data.
    + right; left. apply hook_no_name; [by apply ne_str_true|done].
  - left. apply hook_own_stamp. by apply ne_str_false.
Qed.

Lemma hook_state ap self msg st s v :
  intervenes self msg s v →
  state_of (_pyro_sample ap self msg st) =
  state_of (ap (stamped self msg) (fork_state msg s st)).
Proof.
  intros Hi.
  destruct (ap (stamped self msg) (fork_state msg s st))
    as [x m2 st2|e m2 st2|] eqn:Hap.
  - destruct (hook_after_fork _ _ _ _ _ _ _ _ _ Hi Hap)
      as [[d ->] | [(t & d0 & ->) | [[e ->] | (e & t & ->)]]]; reflexivity.
  - by erewrite hook_fork_raises.
  - by erewrite hook_fork_diverges.
Qed.

Lemma written_keys k :
  k ∉ written →
  k ≠ "_intervener_id" ∧ k ≠ "name" ∧ k ≠ "done" ∧ k ≠ "value" ∧
  k ≠ "is_observed" ∧ k ≠ "fn".
Proof. unfold written. rewrite !not_elem_of_cons. tauto. Qed.

Lemma insert_keeps_key (m : gmap string Value) i x k :
  is_Some (m !! k) → is_Some (<[i := x]> m !! k).
Proof. rewrite lookup_insert_is_Some. destruct (decide (i = k)); auto. Qed.

(** X1. However the hook ends, by a return or by a raise, every key of the
    message other than the six it assigns to ([_intervener_id], [name],
    [done], [value], [is_observed], [fn]) holds what it held on entry. *)
Theorem hook_leaves_other_keys ap self msg st m' k :
  k ∉ written →
  message_of (_pyro_sample ap self msg st) = Some m' →
  m' !! k = msg !! k.
Proof.
  intros Hk. apply written_keys in Hk as (K1 & K2 & K3 & K4 & K5 & K6).
  destruct (hook_cases ap self msg st) as [-> | [-> | (s & v & Hi)]];
    [by intros [= <-] | by intros [= <-] |].
  destruct (ap (stamped self msg) (fork_state msg s st))
    as [x m2 st2|e m2 st2|] eqn:Hap.
  - destruct (hook_after_fork _ _ _ _ _ _ _ _ _ Hi Hap)
      as [[d ->] | [(t & d0 & ->) | [[e ->] | (e & t & ->)]]];
      intros [= <-]; unfold redrawn, pinned, renamed, stamped;
      by rewrite !lookup_insert_ne.
  - erewrite hook_fork_raises by eauto. intros [= <-].
    unfold stamped. by rewrite lookup_insert_ne.
  - erewrite hook_fork_diverges by eauto. discriminate.
Qed.

(** X2. The hook never removes a key: however it ends, every key present in
    the message on entry is still present. *)
Theorem hook_removes_no_key ap self msg st m' k :
  is_Some (msg !! k) →
  message_of (_pyro_sample ap self msg st) = Some m' →
  is_Some (m' !! k).
Proof.
  intros Hk.
  destruct (hook_cases ap self msg st) as [-> | [-> | (s & v & Hi)]];
    [by intros [= <-] | by intros [= <-] |].
  destruct (ap (stamped self msg) (fork_state msg s st))
    as [x m2 st2|e m2 st2|] eqn:Hap.
  - destruct (hook_after_fork _ _ _ _ _ _ _ _ _ Hi Hap)
      as [[d ->] | [(t & d0 & ->) | [[e ->] | (e & t & ->)]]];
      intros [= <-]; unfold redrawn, pinned, renamed, stamped;
      repeat apply insert_keeps_key; exact Hk.
  - erewrite hook_fork_raises by eauto. intros [= <-].
    by apply insert_keeps_key.
  - erewrite hook_fork_diverges by eauto. discriminate.
Qed.

(** X3. The hook is idempotent: on a message it has returned from, a second
    run of the same instance, in any state and with any applier, returns at
    once and leaves the message as it is. *)
Theorem hook_idempotent ap self msg st a m' st' :
  _pyro_sample ap self msg st = Ok a m' st' →
  ∀ ap' st'', _pyro_sample ap' self m' st'' = Ok VNone m' st''.
Proof.
  intros Hrun ap' st''.
  destruct (ne_str (stamp_of msg) (_intervener_id self)) eqn:Hs;
    [|rewrite hook_own_stamp in Hrun by (by apply ne_str_false);
      injection Hrun as _ <- _; apply hook_own_stamp; by apply ne_str_false].
  destruct (msg !! "name") as [name|] eqn:Hn;
    [|rewrite hook_no_name in Hrun by (by try apply ne_str_true);
      discriminate].
  destruct (in_dict name (data self)) eqn:Hd;
    [|rewrite (hook_not_in_data _ _ _ _ name) in Hrun by done;
      injection Hrun as _ <- _; by eapply hook_not_in_data].
  apply in_dict_true in Hd as (s & v & -> & Hd).
  assert (Hi : intervenes self msg s v) by done.
  apply hook_own_stamp.
  destruct (ap (stamped self msg) (fork_state msg s st))
    as [x m2 st2|e m2 st2|] eqn:Hap.
  - destruct (hook_after_fork _ _ _ _ _ _ _ _ _ Hi Hap)
      as [[d H] | [(t & d0 & H) | [[e H] | (e & t & H)]]];
      rewrite H in Hrun; try discriminate; injection Hrun as _ <- _;
      unfold stamp_of.
    + by destruct (redrawn_fields self s d msg) as (_ & _ & _ & _ & _ & ->).
    + by destruct (pinned_fields self s t d0 msg) as (_ & _ & _ & _ & _ & ->).
  - erewrite hook_fork_raises in Hrun by eauto. discriminate.
  - erewrite hook_fork_diverges in Hrun by eauto. discriminate.
Qed.

(** X4. When the nested [apply_stack] call raises, the hook lets the
    exception through with the state the call left; the message then
    carries the instance's stamp and nothing else of it has changed, so it
    is neither renamed nor intervened on, and a later run of the same
    instance on it returns at once: the intervention is not retried. *)
Theorem fork_exception_leaves_site_stamped ap self msg st s v e m2 st2 :
  intervenes self msg s v →
  ap (stamped self msg) (fork_state msg s st) = Raised e m2 st2 →
  _pyro_sample ap self msg st = Raised e (stamped self msg) st2 ∧
  stamped self msg !! "name" = Some (VStr s) ∧
  ∀ ap' st', _pyro_sample ap' self (stamped self msg) st' =
               Ok VNone (stamped self msg) st'.
Proof.
  intros Hi Hap. split; [by eapply hook_fork_raises|].
  split; [destruct Hi as (_ & Hn & _); unfold stamped; by look|].
  intros ap' st'. apply hook_own_stamp. apply stamp_of_stamped.
Qed.

(** X5. A message without a [name] key: if it carries the instance's own
    stamp the hook returns at once, the name not being looked at; otherwise
    the hook raises KeyError('name'), with the message and the state as
    they were and without calling the applier. *)
Theorem nameless_message ap self msg st :
  msg !! "name" = None →
  (stamp_of msg = VStr (_intervener_id self) →
   _pyro_sample ap self msg st = Ok VNone msg st) ∧
  (stamp_of msg ≠ VStr (_intervener_id self) →
   _pyro_sample ap self msg st = Raised (KeyError "name") msg st).
Proof.
  intros Hn. split; intros Hs; [by apply hook_own_stamp|by apply hook_no_name].
Qed.

(** X6. A number or tensor intervention on a message whose [fn] is missing,
    or is not a distribution: the hook raises KeyError('fn'), respectively
    AttributeError for [event_shape], after line 89 has run.  The caller is
    left with a message that is stamped, renamed and holds the intervention
    tensor as [value], while [fn] and [is_observed] are those of entry. *)
Theorem value_intervention_without_distribution
    ap self msg st s v t x m2 st2 :
  intervenes self msg s v →
  number_or_tensor v = Some t →
  (∀ d, msg !! "fn" ≠ Some (VDist d)) →
  ap (stamped self msg) (fork_state msg s st) = Ok x m2 st2 →
  let m' := <["value" := VTensor t]> (renamed self s msg) in
  _pyro_sample ap self msg st =
    Raised (match msg !! "fn" with
            | None => KeyError "fn"
            | Some _ => AttributeError "event_shape"
            end) m' st2 ∧
  m' !! "fn" = msg !! "fn" ∧
  m' !! "is_observed" = msg !! "is_observed".
Proof.
  intros Hi Ht Hfn Hap m'. unfold m'.
  split; [by eapply hook_no_distribution|].
  unfold renamed, stamped. split; by look.
Qed.

(** X7. An intervention given as None on a message without an [fn] key: the
    hook raises KeyError('fn') once the fork has returned; the message is
    then stamped and renamed, nothing else. *)
Theorem none_intervention_without_distribution ap self msg st s x m2 st2 :
  intervenes self msg s VNone →
  msg !! "fn" = None →
  ap (stamped self msg) (fork_state msg s st) = Ok x m2 st2 →
  _pyro_sample ap self msg st =
    Raised (KeyError "fn") (renamed self s msg) st2.
Proof.
  intros Hi Hfn Hap. unfold renamed.
  enter Hi Hn Hd; rewrite Hap; look; rewrite Hn; simpl; rewrite Hd; simpl;
    look; rewrite Hn; simpl; look; rewrite Hfn; reflexivity.
Qed.

(** X8. On a message it intervenes on, the hook calls the applier exactly
    once, and on the message as it was on entry but for the stamp: run with
    an applier that only logs what it is handed, the hook ends with a trace
    that has grown by that one message, whatever the intervention is. *)
Theorem hook_forks_once_on_the_stamped_copy self msg st s v :
  intervenes self msg s v →
  ∃ st', state_of (_pyro_sample spy self msg st) = Some st' ∧
         trace st' = (trace st ++ [stamped self msg])%list.
Proof.
  intros Hi. rewrite (hook_state spy self msg st s v Hi).
  eexists. split; [reflexivity|]. simpl.
  unfold fork_state. by destruct (is_not_None _).
Qed.

(** X9. The fork works on a copy: the outcome of the hook depends on the
    applier only through the state it leaves and the exception it raises,
    not through the value it returns nor through the keys it assigns in the
    message it is handed. *)
Theorem hook_ignores_what_the_fork_does_to_the_copy ap1 ap2 self msg st :
  (∀ new_msg st1, same_effect (ap1 new_msg st1) (ap2 new_msg st1)) →
  _pyro_sample ap1 self msg st = _pyro_sample ap2 self msg st.
Proof.
  intros Hsame.
  destruct (ne_str (stamp_of msg) (_intervener_id self)) eqn:Hs0;
    [|by rewrite !hook_own_stamp by (by apply ne_str_false)].
  destruct (msg !! "name") as [name|] eqn:Hn0;
    [|by rewrite !hook_no_name by (by try apply ne_str_true)].
  destruct (in_dict name (data self)) eqn:Hd0;
    [|by rewrite !(hook_not_in_data _ _ _ _ name) by done].
  apply in_dict_true in Hd0 as (s & v & -> & Hd0).
  assert (Hi : intervenes self msg s v) by done.
  specialize (Hsame (stamped self msg) (fork_state msg s st)).
  clear Hs0 Hn0 Hd0.
  enter Hi Hn Hd; destruct (ap1 _ _), (ap2 _ _); simpl in Hsame;
    try done; destruct_and?; subst; reflexivity.
Qed.

(* a message stamped by another instance is handled as the same message
   without stamp, in the state that holds the warning *)
Lemma hook_foreign_as_unstamped ap self msg st s v :
  foreign_stamp self msg →
  msg !! "name" = Some (VStr s) →
  data self !! s = Some v →
  _pyro_sample ap self msg st =
  _pyro_sample ap self (delete "_intervener_id" msg)
    (warned (RuntimeWarning (multiple_times_text (VStr s))) st).
Proof.
  intros (v0 & Hv0 & Hnone & Hself) Hn Hd.
  assert (Hst : stamp_of msg = v0) by (unfold stamp_of; by rewrite Hv0).
  assert (Hst' : stamp_of (delete "_intervener_id" msg) = VNone)
    by (unfold stamp_of; by rewrite lookup_delete_eq).
  assert (Hs : ne_str v0 (_intervener_id self) = true) by by apply ne_str_true.
  assert (Hnn : is_not_None v0 = true) by by destruct v0.
  assert (Hn' : delete "_intervener_id" msg !! "name" = Some (VStr s))
    by by rewrite lookup_delete_ne.
  run. rewrite Hst, Hst', Hs. simpl. rewrite Hn, Hn'. simpl. rewrite Hd.
  fold_stamp. rewrite Hst, Hst', Hnn. simpl. rewrite Hn. simpl.
  rewrite insert_delete_eq. reflexivity.
Qed.

(** X10. The stamp written by [__init__] tells instances apart.  A message
    stamped by the instance built at identity [a] is skipped by that same
    instance; an instance built at another identity [b] whose mapping holds
    the site handles it exactly as it handles the message without stamp,
    in the state that holds one more warning. *)
Theorem stamps_tell_instances_apart ap a b d1 d2 msg st s v :
  msg !! "name" = Some (VStr s) →
  d2 !! s = Some v →
  (_pyro_sample ap (__init__ a d1) (stamped (__init__ a d1) msg) st =
     Ok VNone (stamped (__init__ a d1) msg) st) ∧
  (a ≠ b →
   _pyro_sample ap (__init__ b d2) (stamped (__init__ a d1) msg) st =
   _pyro_sample ap (__init__ b d2) (delete "_intervener_id" msg)
     (warned (RuntimeWarning (multiple_times_text (VStr s))) st)).
Proof.
  intros Hn Hd. split.
  - apply hook_own_stamp, stamp_of_stamped.
  - intros Hab.
    rewrite (hook_foreign_as_unstamped ap (__init__ b d2)
               (stamped (__init__ a d1) msg) st s v).
    + unfold stamped. by rewrite delete_insert_eq.
    + exists (VStr (pretty a)). unfold stamped. simpl.
      split; [by rewrite lookup_insert_eq|]. split; [done|].
      intros [= H]. by apply (inj pretty) in H.
    + unfold stamped. by rewrite lookup_insert_ne.
    + exact Hd.
Qed.

(** X11. Once an instance has intervened on the site [s] and returned, the
    message goes under the name [s__CF]: an instance whose mapping has no
    entry for [s__CF] returns at once on it, also when its mapping has an
    entry for [s]. *)
Theorem renamed_site_is_out_of_reach_of_the_original_key
    ap self other msg st s v a m' st' :
  intervenes self msg s v →
  _pyro_sample ap self msg st = Ok a m' st' →
  data other !! (s ++ "__CF") = None →
  ∀ ap' st'', _pyro_sample ap' other m' st'' = Ok VNone m' st''.
Proof.
  intros Hi Hrun Hother ap' st''.
  apply (hook_not_in_data _ _ _ _ (VStr (s ++ "__CF")));
    [|by simpl; rewrite Hother].
  destruct (ap (stamped self msg) (fork_state msg s st))
    as [x m2 st2|e m2 st2|] eqn:Hap.
  - destruct (hook_after_fork _ _ _ _ _ _ _ _ _ Hi Hap)
      as [[d H] | [(t & d0 & H) | [[e H] | (e & t & H)]]];
      rewrite H in Hrun; try discriminate; injection Hrun as _ <- _.
    + apply redrawn_fields.
    + apply pinned_fields.
  - erewrite hook_fork_raises in Hrun by eauto. discriminate.
  - erewrite hook_fork_diverges in Hrun by eauto. discriminate.
Qed.

(** X12. On a site that no instance has stamped yet (the key is missing or
    holds None) and that the mapping names, the hook emits no warning and
    touches the interpreter state only through the applier: it ends, by a
    return or a raise, in the state in which the one nested applier call,
    entered in the state of entry, has ended, and does not come back
    exactly when that call does not. *)
Theorem first_intervention_adds_nothing_to_the_state ap self msg st s v :
  msg !! "_intervener_id" = None ∨ msg !! "_intervener_id" = Some VNone →
  msg !! "name" = Some (VStr s) →
  data self !! s = Some v →
  state_of (_pyro_sample ap self msg st) =
  state_of (ap (stamped self msg) st).
Proof.
  intros Hstamp Hn Hd.
  assert (Hst : stamp_of msg = VNone)
    by (unfold stamp_of; destruct Hstamp as [-> | ->]; reflexivity).
  assert (Hi : intervenes self msg s v)
    by (split; [by rewrite Hst|done]).
  rewrite (hook_state ap self msg st s v Hi).
  unfold fork_state. by rewrite Hst.
Qed.

(** X13. A number or tensor intervention that [Delta] refuses for the
    event dimension of the distribution the message carries (a scalar for
    a site with a non-empty event shape): the hook raises the exception of
    [Delta] in line 90, after line 89 has run.  The caller is left with a
    message that is stamped, renamed and holds the intervention tensor as
    [value], while [fn] is the distribution of entry and [is_observed] is
    that of entry. *)
Theorem value_intervention_refused_by_Delta
    ap self msg st s v t d0 e x m2 st2 :
  intervenes self msg s v →
  number_or_tensor v = Some t →
  msg !! "fn" = Some (VDist d0) →
  Delta t (length (event_shape d0)) = inl e →
  ap (stamped self msg) (fork_state msg s st) = Ok x m2 st2 →
  let m' := <["value" := VTensor t]> (renamed self s msg) in
  _pyro_sample ap self msg st = Raised e m' st2 ∧
  m' !! "fn" = Some (VDist d0) ∧
  m' !! "is_observed" = msg !! "is_observed".
Proof.
  intros Hi Ht Hfn Hdelta Hap m'. unfold m', renamed.
  split; [by eapply hook_delta_raises|].
  unfold stamped. split; by look.
Qed.

(** X14. A number intervention that [float()] refuses (a complex number, an
    int too large): the hook raises the exception of [float()] in line 88,
    once the fork has returned; the message is then stamped and renamed,
    and its [value] is that of entry. *)
Theorem number_intervention_refused_by_float ap self msg st s n e x m2 st2 :
  intervenes self msg s (VNumber n) →
  py_float n = inl e →
  ap (stamped self msg) (fork_state msg s st) = Ok x m2 st2 →
  _pyro_sample ap self msg st = Raised e (renamed self s msg) st2 ∧
  renamed self s msg !! "value" = msg !! "value".
Proof.
  intros Hi Hfloat Hap. unfold renamed.
  split; [by eapply hook_float_raises|].
  unfold stamped. by look.
Qed.

End HookOutcomes.

(** ** The further facts at concrete inputs *)

Section MoreExamples.
Import Toy.

Lemma z_pinned_run :
  _pyro_sample (apply_stack 1 [do_messenger (do_z (num 2))]) (do_z (num 2))
    z_msg st0 =
  Ok VNone (pinned (do_z (num 2)) "z" two (PointMass two 0) z_msg)
     (logged (factual (do_z (num 2)) (Normal 0 1) z_msg st0)
        (drawn (Normal 0 1) st0)).
Proof.
  eapply hook_pinned;
    [apply z_intervenes | reflexivity | apply z_fn | reflexivity
    |apply (z_fork 0)].
Qed.

Lemma hook_leaves_other_keys_witness :
  ("kind" ∉ written) ∧
  pinned (do_z (num 2)) "z" two (PointMass two 0) z_msg !! "kind" =
  z_msg !! "kind".
Proof.
  assert (H : "kind" ∉ written).
  { unfold written. rewrite !not_elem_of_cons.
    repeat split; try discriminate. apply not_elem_of_nil. }
  split; [exact H|].
  apply (hook_leaves_other_keys (B:=backend)
           (apply_stack 1 [do_messenger (do_z (num 2))]) (do_z (num 2))
           z_msg st0 _ "kind" H).
  rewrite z_pinned_run. reflexivity.
Defined.

Lemma hook_removes_no_key_witness :
  is_Some (z_msg !! "stop") ∧
  is_Some (pinned (do_z (num 2)) "z" two (PointMass two 0) z_msg !! "stop").
Proof.
  assert (H : is_Some (z_msg !! "stop"))
    by (exists (VBool false); vm_compute; reflexivity).
  split; [exact H|].
  apply (hook_removes_no_key (B:=backend)
           (apply_stack 1 [do_messenger (do_z (num 2))]) (do_z (num 2))
           z_msg st0 _ "stop" H).
  rewrite z_pinned_run. reflexivity.
Defined.

Lemma hook_idempotent_witness :
  _pyro_sample spy (do_z (num 2))
    (pinned (do_z (num 2)) "z" two (PointMass two 0) z_msg) st0 =
  Ok VNone (pinned (do_z (num 2)) "z" two (PointMass two 0) z_msg) st0.
Proof.
  exact (hook_idempotent (B:=backend) _ _ _ _ _ _ _ z_pinned_run spy st0).
Defined.

Lemma fork_exception_leaves_site_stamped_witness :
  _pyro_sample raising (do_z (num 2)) z_msg st0 =
    Raised (TypeError "object is not callable")
           (stamped (do_z (num 2)) z_msg) st0 ∧
  stamped (do_z (num 2)) z_msg !! "name" = Some (VStr "z") ∧
  ∀ ap' st', _pyro_sample ap' (do_z (num 2)) (stamped (do_z (num 2)) z_msg)
               st' =
             Ok VNone (stamped (do_z (num 2)) z_msg) st'.
Proof.
  apply (fork_exception_leaves_site_stamped (B:=backend) raising
           (do_z (num 2)) z_msg st0 "z" (num 2) _
           (stamped (do_z (num 2)) z_msg) st0).
  - repeat split; vm_compute; reflexivity.
  - reflexivity.
Defined.

Lemma nameless_message_witness :
  nameless_msg !! "name" = None ∧
  _pyro_sample spy (do_z (num 2)) nameless_msg st0 =
    Raised (KeyError "name") nameless_msg st0.
Proof.
  assert (H : nameless_msg !! "name" = None) by (vm_compute; reflexivity).
  split; [exact H|].
  apply (proj2 (nameless_message (B:=backend) spy (do_z (num 2))
                  nameless_msg st0 H)).
  vm_compute. discriminate.
Defined.

Lemma value_intervention_without_distribution_witness :
  _pyro_sample spy (do_z (num 2)) fn_less_msg st0 =
    Raised (KeyError "fn")
           (<["value" := VTensor two]> (renamed (do_z (num 2)) "z" fn_less_msg))
           (logged (stamped (do_z (num 2)) fn_less_msg) st0).
Proof.
  refine (proj1 (value_intervention_without_distribution (B:=backend) spy
                   (do_z (num 2)) fn_less_msg st0 "z" (num 2) two _ _ _
                   _ _ _ _)).
  - repeat split; vm_compute; reflexivity.
  - reflexivity.
  - intros d. vm_compute. discriminate.
  - reflexivity.
Defined.

Lemma none_intervention_without_distribution_witness :
  _pyro_sample spy (do_z VNone) fn_less_msg st0 =
    Raised (KeyError "fn") (renamed (do_z VNone) "z" fn_less_msg)
           (logged (stamped (do_z VNone) fn_less_msg) st0).
Proof.
  apply (none_intervention_without_distribution (B:=backend) spy
           (do_z VNone) fn_less_msg st0 "z" VNone
           (stamped (do_z VNone) fn_less_msg)).
  - repeat split; vm_compute; reflexivity.
  - vm_compute; reflexivity.
  - reflexivity.
Defined.

Lemma hook_forks_once_on_the_stamped_copy_witness :
  ∃ st', state_of (_pyro_sample spy (do_z (VStr "a")) z_msg st0) = Some st' ∧
         trace st' = [stamped (do_z (VStr "a")) z_msg].
Proof.
  apply (hook_forks_once_on_the_stamped_copy (B:=backend) (do_z (VStr "a"))
           z_msg st0 "z" (VStr "a")).
  repeat split; vm_compute; reflexivity.
Defined.

Lemma hook_ignores_what_the_fork_does_to_the_copy_witness :
  _pyro_sample spy (do_z (num 2)) z_msg st0 =
  _pyro_sample meddling (do_z (num 2)) z_msg st0.
Proof.
  apply (hook_ignores_what_the_fork_does_to_the_copy (B:=backend) spy
           meddling (do_z (num 2)) z_msg st0).
  intros new_msg st1. reflexivity.
Defined.

Lemma stamps_tell_instances_apart_witness :
  _pyro_sample spy (__init__ 2 {["z" := num 3]})
    (stamped (__init__ 1 {["z" := num 2]}) z_msg) st0 =
  _pyro_sample spy (__init__ 2 {["z" := num 3]})
    (delete "_intervener_id" z_msg)
    (warned (RuntimeWarning (multiple_times_text (VStr "z"))) st0).
Proof.
  refine (proj2 (stamps_tell_instances_apart (B:=backend) spy 1 2
                   {["z" := num 2]} {["z" := num 3]} z_msg st0 "z" (num 3)
                   _ _) _).
  - vm_compute; reflexivity.
  - vm_compute; reflexivity.
  - discriminate.
Defined.

Lemma renamed_site_is_out_of_reach_of_the_original_key_witness :
  data do_z_again !! "z" = Some (num 3) ∧
  _pyro_sample spy do_z_again
    (pinned (do_z (num 2)) "z" two (PointMass two 0) z_msg) st0 =
  Ok VNone (pinned (do_z (num 2)) "z" two (PointMass two 0) z_msg) st0.
Proof.
  split; [vm_compute; reflexivity|].
  refine (renamed_site_is_out_of_reach_of_the_original_key (B:=backend)
            _ (do_z (num 2)) do_z_again z_msg st0 "z" (num 2) _ _ _
            (z_intervenes (num 2)) z_pinned_run _ spy st0).
  vm_compute; reflexivity.
Defined.

Lemma first_intervention_adds_nothing_to_the_state_witness :
  state_of (_pyro_sample spy (do_z (num 2)) z_msg st0) =
  state_of (spy (stamped (do_z (num 2)) z_msg) st0).
Proof.
  apply (first_intervention_adds_nothing_to_the_state (B:=backend) spy
           (do_z (num 2)) z_msg st0 "z" (num 2)).
  - left. vm_compute; reflexivity.
  - vm_compute; reflexivity.
  - vm_compute; reflexivity.
Defined.

Lemma value_intervention_refused_by_Delta_witness :
  _pyro_sample spy (do_z (num 2)) mvn_msg st0 =
    Raised (ValueError "Expected event_dim <= v.dim()")
           (<["value" := VTensor two]> (renamed (do_z (num 2)) "z" mvn_msg))
           (logged (stamped (do_z (num 2)) mvn_msg) st0).
Proof.
  refine (proj1 (value_intervention_refused_by_Delta (B:=backend) spy
                   (do_z (num 2)) mvn_msg st0 "z" (num 2) two
                   (MultivariateNormal 2) _ _ _ _ _ _ _ _ _)).
  - repeat split; vm_compute; reflexivity.
  - reflexivity.
  - vm_compute; reflexivity.
  - reflexivity.
  - reflexivity.
Defined.

Lemma number_intervention_refused_by_float_witness :
  _pyro_sample spy (do_z imaginary) z_msg st0 =
    Raised (TypeError "float() argument must be a string or a real number")
           (renamed (do_z imaginary) "z" z_msg)
           (logged (stamped (do_z imaginary) z_msg) st0).
Proof.
  refine (proj1 (number_intervention_refused_by_float (B:=backend) spy
                   (do_z imaginary) z_msg st0 "z" (Complex 0 1) _ _ _ _
                   _ _ _)).
  - apply z_intervenes.
  - reflexivity.
  - reflexivity.
Defined.

End MoreExamples.
